(** * Booking chatbot: scratchpad, confirmation flow and retroactive name scan

    A shallow embedding of the reconciliation and finalization core of the
    chatbot: [booking/scratchpad.py], the write paths of
    [orchestrator/message_processor.py], [orchestrator/scratchpad_coordinator.py]
    and [booking/booking_flow_integration.py], the confirmation block of
    [MessageProcessor.process_message], the dump-and-clear tail shared by
    [message_processor.py] and [main.py], and [RetroactiveScanner.scan_for_name]
    of [retroactive_validator.py].

    Conventions of the embedding.
    - Python [str] is [string]; a character is a code point below 256.
    - A field value ([Any] in the source) is [None] or an object.  The code
      converts a value with [str], tests it for truth and compares it with
      [None], and does nothing else with it: an object is a string, or
      another object that is given by what [str] and [bool] return for it.
    - A Python [dict] keyed by field name is a [gmap string _]; the collected
      data dictionaries that are iterated in order are association lists.
    - [datetime.now()] is a reading of a clock supplied by the caller.
    - The completeness percentage has one decimal digit: it is stored as an
      integer number of tenths of a percent ([62] is 6.2%).  With
      [TOTAL_POSSIBLE_FIELDS = 16] the quotient [filled / 16 * 100] is exact in
      binary floating point, so [round(_, 1)] is the round-half-to-even of the
      exact value. *)

From stdpp Require Import gmap strings list fin_maps.
From Stdlib Require Import ZArith Ascii String DecimalString Lia.

Local Open Scope string_scope.
Local Open Scope Z_scope.

(** ** Python strings *)

Module PyStr.

Definition code (c : ascii) : nat := nat_of_ascii c.

(** [str.lower()] on one code point below 256: A-Z and the Latin-1 capitals. *)
Definition lower_char (c : ascii) : ascii :=
  let n := code c in
  if ((65 <=? n) && (n <=? 90))%nat
     || ((192 <=? n) && (n <=? 222) && negb (n =? 215))%nat
  then ascii_of_nat (n + 32) else c.

Fixpoint lower (s : string) : string :=
  match s with
  | EmptyString => EmptyString
  | String c s' => String (lower_char c) (lower s')
  end.

(** [str.isspace()] on one code point below 256. *)
Definition is_space (c : ascii) : bool :=
  let n := code c in
  (((9 <=? n) && (n <=? 13)) || ((28 <=? n) && (n <=? 32))
   || (n =? 133) || (n =? 160))%nat.

Fixpoint lstrip_by (p : ascii -> bool) (s : string) : string :=
  match s with
  | EmptyString => EmptyString
  | String c s' => if p c then lstrip_by p s' else s
  end.

(** Removes the trailing characters that satisfy [p]. *)
Fixpoint rstrip_by (p : ascii -> bool) (s : string) : string :=
  match s with
  | EmptyString => EmptyString
  | String c s' =>
      match rstrip_by p s' with
      | EmptyString => if p c then EmptyString else String c EmptyString
      | r => String c r
      end
  end.

Definition strip_by (p : ascii -> bool) (s : string) : string :=
  rstrip_by p (lstrip_by p s).

(** [s.strip()] *)
Definition strip (s : string) : string := strip_by is_space s.

(** [s.strip(q)] where [q] holds the double and the single quote character. *)
Definition is_quote (c : ascii) : bool :=
  ((code c =? 34) || (code c =? 39))%nat.
Definition strip_quotes (s : string) : string := strip_by is_quote s.

(** [sub in s] *)
Fixpoint contains (sub s : string) : bool :=
  String.prefix sub s
  || match s with
     | EmptyString => false
     | String _ s' => contains sub s'
     end.

(** [s in l] for a list or set of strings. *)
Definition mem (s : string) (l : list string) : bool :=
  existsb (String.eqb s) l.

(** [any(kw in s for kw in kws)] *)
Definition any_in (kws : list string) (s : string) : bool :=
  existsb (fun kw => contains kw s) kws.

(** Truthiness of a string. *)
Definition nonempty (s : string) : bool :=
  match s with EmptyString => false | _ => true end.

End PyStr.

(** ** Values *)

(** An object other than [None]: a string, or an object of another type,
    given by what [str] and [bool] return for it.  The integer 0 is
    [Obj "0" false], [False] is [Obj "False" false], the empty list is
    [Obj "[]" false], the number 7 is [Obj "7" true]. *)
Inductive pyobj : Type :=
  | Str (s : string)
  | Obj (repr : string) (truth : bool).

(** A field value: [None] or an object. *)
Definition pyval : Type := option pyobj.

(** [str(value)] *)
Definition py_str (v : pyval) : string :=
  match v with
  | None => "None"
  | Some (Str s) => s
  | Some (Obj repr _) => repr
  end.

(** Truthiness of a value: [None] and the empty string are falsy, another
    object is what [bool] returns for it. *)
Definition truthy (v : pyval) : bool :=
  match v with
  | None => false
  | Some (Str s) => PyStr.nonempty s
  | Some (Obj _ truth) => truth
  end.

Definition PLACEHOLDERS : list string := ["unknown"; "none"; EmptyString].

(** [str(v).lower() in PLACEHOLDERS] *)
Definition placeholder_text (v : pyval) : bool :=
  PyStr.mem (PyStr.lower (py_str v)) PLACEHOLDERS.

(** [value is None or str(value).lower() in PLACEHOLDERS] *)
Definition invalid_value (v : pyval) : bool :=
  match v with
  | None => true
  | Some _ => placeholder_text v
  end.

(** [v.value and str(v.value).lower() not in PLACEHOLDERS] *)
Definition counts_as_filled (v : pyval) : bool :=
  truthy v && negb (placeholder_text v).

(** ** config.py *)

Module Config.

Inductive ConfirmationMode : Type := CHAT | BUTTON.

Definition RETROACTIVE_SCAN_LIMIT : nat := 4.
Definition CONFIRMATION_AUTO_CONFIRM_ATTEMPTS : Z := 3.
Definition CONFIRMATION_MODE : ConfirmationMode := CHAT.
Definition REQUIRED_FIELDS_FOR_BOOKING : Z := 12.
Definition TOTAL_POSSIBLE_FIELDS : Z := 16.

Definition GREETING_STOPWORDS : list string :=
  [ "haan"; "haji"; "han"; "haa"; "ji"; "haanji"; "hello ji"; "nomoshkar";
    "namaste";
    "hello"; "hi"; "hey"; "yes"; "yeah"; "yep"; "ok"; "okay"; "sure"; "fine";
    "ok"; "okey"; "yo"; "yup"; "yaar"; "dost"; "sirji";
    "shukriya"; "shukriya ji"; "thank you"; "thanks"; "thankyou"; "thank";
    "thx";
    "dhanyavaad"; "bahut acha"; "bahut achha"; "achha"; "acha"; "great";
    "perfect";
    "done"; "good"; "nice"; "wonderful"; "excellent"; "super"; "awesome";
    "bye"; "goodbye"; "tata"; "cheerio"; "see you"; "later" ].

(** One entry of [TIME_SLOTS]; the times are minutes after midnight. *)
Record TimeSlot : Type := mkTimeSlot {
  slot_label : string;
  slot_start : Z;
  slot_end : Z;
  slot_description : string
}.

Definition TIME_SLOTS : list (string * TimeSlot) :=
  [ ("early_morning",
     mkTimeSlot "Early Morning" (6 * 60) (9 * 60)
       "Early morning service (6 AM - 9 AM)");
    ("afternoon",
     mkTimeSlot "Afternoon" (10 * 60) (13 * 60)
       "Afternoon service (10 AM - 1 PM)");
    ("evening",
     mkTimeSlot "Evening" (14 * 60) (18 * 60)
       "Evening service (2 PM - 6 PM)") ].

End Config.

(** ** booking/scratchpad.py *)

Definition datetime : Type := Z.

(** Confidence scores are percentages in the model (1.0 is 100, 0.85 is 85). *)
Definition confidence_t : Type := Z.

Record FieldEntry : Type := mkFieldEntry {
  value : pyval;
  source : option string;
  turn : option Z;
  confidence : option confidence_t;
  extraction_method : option string;
  timestamp : option datetime;
  edit_source : option string;
  previous_value : pyval;
  edited_at : option datetime
}.

(** The keys of [ScratchpadForm.metadata] that the code reads or writes; a
    key that is not in the dictionary is [None].  The constructor writes the
    first three, and [data_completeness] is in the dictionary after every
    operation.  [turns] is read by [BookingFlowManager._add_extracted_data]
    only and holds the length of the list stored under that key, when there
    is one. *)
Record Metadata : Type := mkMetadata {
  meta_conversation_id : option string;
  meta_created_at : option datetime;
  data_completeness : Z;
  is_bookable : option bool;
  filled_required_fields : option Z;
  turns : option nat
}.

Record ScratchpadForm : Type := mkForm {
  customer : gmap string FieldEntry;
  vehicle : gmap string FieldEntry;
  appointment : gmap string FieldEntry;
  metadata : Metadata
}.

Record ScratchpadManager : Type := mkManager {
  form : ScratchpadForm;
  conversation_id : string;
  created_at : datetime
}.

Definition SECTIONS : list string := ["customer"; "vehicle"; "appointment"].

Definition valid_section (section : string) : bool := PyStr.mem section SECTIONS.

(** [getattr(self.form, section)] for one of the three section names. *)
Definition getattr_section (f : ScratchpadForm) (section : string)
  : gmap string FieldEntry :=
  if String.eqb section "customer" then customer f
  else if String.eqb section "vehicle" then vehicle f
  else appointment f.

(** Replaces the dictionary held by a section (the code mutates it in place). *)
Definition setattr_section (f : ScratchpadForm) (section : string)
    (d : gmap string FieldEntry) : ScratchpadForm :=
  if String.eqb section "customer" then
    mkForm d (vehicle f) (appointment f) (metadata f)
  else if String.eqb section "vehicle" then
    mkForm (customer f) d (appointment f) (metadata f)
  else
    mkForm (customer f) (vehicle f) d (metadata f).

Definition with_form (sp : ScratchpadManager) (f : ScratchpadForm)
  : ScratchpadManager :=
  mkManager f (conversation_id sp) (created_at sp).

(** [ScratchpadManager.__init__] *)
Definition new_scratchpad (cid : string) (now : datetime) : ScratchpadManager :=
  mkManager
    (mkForm ∅ ∅ ∅ (mkMetadata (Some cid) (Some now) 0 None None None))
    cid now.

(** [round(filled / total_possible * 100, 1)] in tenths of a percent:
    round-half-to-even of [filled * 1000 / total_possible]. *)
Definition round1_pct (filled total : Z) : Z :=
  let q := (filled * 1000) / total in
  let r := (filled * 1000) mod total in
  if 2 * r <? total then q
  else if total <? 2 * r then q + 1
  else if Z.even q then q else q + 1.

(** Number of entries of a section that count as filled. *)
Definition filled_in (d : gmap string FieldEntry) : Z :=
  Z.of_nat (size (filter (fun kv => counts_as_filled (value kv.2) = true) d)).

Definition filled_count (f : ScratchpadForm) : Z :=
  filled_in (customer f) + filled_in (vehicle f) + filled_in (appointment f).

Definition required_fields : list string :=
  ["first_name"; "last_name"; "phone"] ++ ["brand"; "model"; "plate"] ++ ["date"].

(** One pass of the inner loop over [required_fields] for one section. *)
Definition filled_required_in (d : gmap string FieldEntry) : Z :=
  fold_left
    (fun acc field_name =>
       match d !! field_name with
       | Some e =>
           if truthy (value e) then
             if PyStr.mem (PyStr.lower (py_str (value e))) PLACEHOLDERS
             then acc else acc + 1
           else acc
       | None => acc
       end)
    required_fields 0.

Definition filled_required_count (f : ScratchpadForm) : Z :=
  filled_required_in (customer f) + filled_required_in (vehicle f)
  + filled_required_in (appointment f).

(** The capped percentage computed by [_update_completeness]. *)
Definition completeness_of (filled : Z) : Z :=
  let completeness_pct := round1_pct filled Config.TOTAL_POSSIBLE_FIELDS in
  if 1000 <? completeness_pct then 1000 else completeness_pct.

(** [ScratchpadManager._update_completeness] *)
Definition _update_completeness (sp : ScratchpadManager) : ScratchpadManager :=
  let f := form sp in
  let filled := filled_count f in
  let filled_required := filled_required_count f in
  let required_for_booking := Config.REQUIRED_FIELDS_FOR_BOOKING in
  let completeness_pct := completeness_of filled in
  let bookable := required_for_booking - 1 <=? filled_required in
  let m := metadata f in
  with_form sp
    (mkForm (customer f) (vehicle f) (appointment f)
       (mkMetadata (meta_conversation_id m) (meta_created_at m)
          completeness_pct (Some bookable) (Some filled_required) (turns m))).

(** [ScratchpadManager.add_field] with an [extraction_method] that is a string
    or [None], the two that [FieldEntry] takes; [now] is the clock reading
    used for both time stamps. *)
Definition add_field_with (now : datetime) (sp : ScratchpadManager)
    (section field_name : string) (v : pyval) (src : string) (new_turn : Z)
    (conf : confidence_t) (method : option string) (edit_src : string)
  : bool * ScratchpadManager :=
  if negb (valid_section section) then (false, sp)
  else if invalid_value v then (false, sp)
  else
    let section_dict := getattr_section (form sp) section in
    let existing_entry := section_dict !! field_name in
    let decision : option pyval :=
      match existing_entry with
      | Some e =>
          match turn e with
          | Some t => if new_turn <=? t then None else Some (value e)
          | None => Some None
          end
      | None => Some None
      end in
    match decision with
    | None => (false, sp)
    | Some prev =>
        let entry :=
          mkFieldEntry v (Some src) (Some new_turn) (Some conf) method
            (Some now) (Some edit_src) prev (Some now) in
        (true,
         _update_completeness
           (with_form sp
              (setattr_section (form sp) section
                 (<[field_name := entry]> section_dict))))
    end.

(** [ScratchpadManager.add_field], called with a string for
    [extraction_method], as its signature has it. *)
Definition add_field (now : datetime) (sp : ScratchpadManager)
    (section field_name : string) (v : pyval) (src : string) (new_turn : Z)
    (conf : confidence_t) (method edit_src : string)
  : bool * ScratchpadManager :=
  add_field_with now sp section field_name v src new_turn conf (Some method)
    edit_src.

(** [ScratchpadManager.get_field] *)
Definition get_field (sp : ScratchpadManager) (section field_name : string)
  : option FieldEntry :=
  if negb (valid_section section) then None
  else getattr_section (form sp) section !! field_name.

(** [ScratchpadManager.get_completeness] *)
Definition get_completeness (sp : ScratchpadManager) : Z :=
  data_completeness (metadata (form sp)).

Definition with_value (e : FieldEntry) (v : pyval) : FieldEntry :=
  mkFieldEntry v (source e) (turn e) (confidence e) (extraction_method e)
    (timestamp e) (edit_source e) (previous_value e) (edited_at e).

(** [ScratchpadManager.update_field]: overwrites the value in place. *)
Definition update_field (sp : ScratchpadManager) (section field_name : string)
    (new_value : pyval) : bool * ScratchpadManager :=
  match get_field sp section field_name with
  | None => (false, sp)
  | Some e =>
      (true,
       _update_completeness
         (with_form sp
            (setattr_section (form sp) section
               (<[field_name := with_value e new_value]>
                  (getattr_section (form sp) section)))))
  end.

(** What [getattr(self.form, section, default)] finds for the section of
    [delete_field], which has no test of the name: one of the four fields of
    the form, or no attribute at all, in which case the default, an empty
    dictionary, is used.  The name of another attribute of the form object (a
    method or an internal of pydantic) has no counterpart here: what the call
    does with it is outside the model. *)
Inductive FormAttr : Type :=
  | AttrCustomer
  | AttrVehicle
  | AttrAppointment
  | AttrMetadata
  | AttrDefault.

(** [del metadata[key]]; [None] when the key is not in the dictionary.  The
    key [data_completeness] is always there, and [_update_completeness]
    writes it again right after the deletion. *)
Definition metadata_delete (m : Metadata) (key : string) : option Metadata :=
  if String.eqb key "conversation_id" then
    match meta_conversation_id m with
    | Some _ =>
        Some (mkMetadata None (meta_created_at m) (data_completeness m)
                (is_bookable m) (filled_required_fields m) (turns m))
    | None => None
    end
  else if String.eqb key "created_at" then
    match meta_created_at m with
    | Some _ =>
        Some (mkMetadata (meta_conversation_id m) None (data_completeness m)
                (is_bookable m) (filled_required_fields m) (turns m))
    | None => None
    end
  else if String.eqb key "data_completeness" then Some m
  else if String.eqb key "is_bookable" then
    match is_bookable m with
    | Some _ =>
        Some (mkMetadata (meta_conversation_id m) (meta_created_at m)
                (data_completeness m) None (filled_required_fields m)
                (turns m))
    | None => None
    end
  else if String.eqb key "filled_required_fields" then
    match filled_required_fields m with
    | Some _ =>
        Some (mkMetadata (meta_conversation_id m) (meta_created_at m)
                (data_completeness m) (is_bookable m) None (turns m))
    | None => None
    end
  else if String.eqb key "turns" then
    match turns m with
    | Some _ =>
        Some (mkMetadata (meta_conversation_id m) (meta_created_at m)
                (data_completeness m) (is_bookable m)
                (filled_required_fields m) None)
    | None => None
    end
  else None.

(** The body of [delete_field] when the attribute is one of the three
    sections. *)
Definition delete_entry (sp : ScratchpadManager) (section field_name : string)
  : bool * ScratchpadManager :=
  let section_dict := getattr_section (form sp) section in
  match section_dict !! field_name with
  | Some _ =>
      (true,
       _update_completeness
         (with_form sp
            (setattr_section (form sp) section
               (delete field_name section_dict))))
  | None => (false, sp)
  end.

(** [ScratchpadManager.delete_field] *)
Definition delete_field (sp : ScratchpadManager) (section : FormAttr)
    (field_name : string) : bool * ScratchpadManager :=
  match section with
  | AttrCustomer => delete_entry sp "customer" field_name
  | AttrVehicle => delete_entry sp "vehicle" field_name
  | AttrAppointment => delete_entry sp "appointment" field_name
  | AttrMetadata =>
      match metadata_delete (metadata (form sp)) field_name with
      | Some m =>
          (true,
           _update_completeness
             (with_form sp
                (mkForm (customer (form sp)) (vehicle (form sp))
                   (appointment (form sp)) m)))
      | None => (false, sp)
      end
  | AttrDefault => (false, sp)
  end.

(** [ScratchpadManager.clear_all] *)
Definition clear_all (sp : ScratchpadManager) : ScratchpadManager :=
  let m := metadata (form sp) in
  with_form sp
    (mkForm ∅ ∅ ∅
       (mkMetadata (meta_conversation_id m) (meta_created_at m) 0
          (is_bookable m) (filled_required_fields m) (turns m))).

(** [config.TIME_SLOTS[name]], when [name in config.TIME_SLOTS]. *)
Fixpoint time_slot_lookup (slots : list (string * Config.TimeSlot))
    (name : string) : option Config.TimeSlot :=
  match slots with
  | [] => None
  | (k, slot) :: slots' =>
      if String.eqb k name then Some slot else time_slot_lookup slots' name
  end.

(** What [set_time_slot] can be given: [None], an object of the class
    [ValidatedTimeSlot] of models.py (not among the sources; the four
    attributes that are read, with the types of their declarations), a
    string, or a value of another type. *)
Inductive TimeSlotArg : Type :=
  | SlotNone
  | SlotValidated (slot_name slot_label : string) (conf : confidence_t)
      (method : string)
  | SlotStr (name : string)
  | SlotOther.

(** [ScratchpadManager.set_time_slot] *)
Definition set_time_slot (now : datetime) (sp : ScratchpadManager)
    (validated_time_slot : TimeSlotArg) : bool * ScratchpadManager :=
  match validated_time_slot with
  | SlotNone => (false, sp)
  | SlotValidated slot_name slot_label conf method =>
      add_field now sp "appointment" "time_slot" (Some (Str slot_name))
        ("ValidatedTimeSlot:" ++ slot_label) 0 conf method "initial_entry"
  | SlotStr name =>
      match time_slot_lookup Config.TIME_SLOTS name with
      | None => (false, sp)
      | Some slot =>
          add_field now sp "appointment" "time_slot" (Some (Str name))
            ("config.TIME_SLOTS:" ++ Config.slot_label slot) 0 100
            "rule_based" "initial_entry"
      end
  | SlotOther => (false, sp)
  end.

(** ** Ordered dictionaries of collected data *)

(** [user_data], [extracted_data] and the merged dictionaries are iterated in
    insertion order: association lists whose keys are kept unique by
    [dict_set]. *)
Definition pydict : Type := list (string * pyval).

Fixpoint dict_get (d : pydict) (k : string) : option pyval :=
  match d with
  | [] => None
  | (k', v) :: d' => if String.eqb k' k then Some v else dict_get d' k
  end.

(** [d[k] = v]: an existing key keeps its position, a new key is appended. *)
Fixpoint dict_set (d : pydict) (k : string) (v : pyval) : pydict :=
  match d with
  | [] => [(k, v)]
  | (k', v') :: d' =>
      if String.eqb k' k then (k, v) :: d' else (k', v') :: dict_set d' k v
  end.

(** [{**a, **b}] *)
Definition dict_merge (a b : pydict) : pydict :=
  fold_left (fun acc kv => dict_set acc kv.1 kv.2) b a.

Definition dict_keys (d : pydict) : list string := map fst d.

(** [mapping.get(k, k)] for a renaming table. *)
Fixpoint rename_get (mapping : list (string * string)) (k : string) : string :=
  match mapping with
  | [] => k
  | (k', r) :: mapping' => if String.eqb k' k then r else rename_get mapping' k
  end.

(** [set(required).issubset(keys)] *)
Definition issubset (required keys : list string) : bool :=
  forallb (fun r => PyStr.mem r keys) required.

(** ** Conversation states (config.py) *)

Inductive ConversationState : Type :=
  | GREETING | NAME_COLLECTION | VEHICLE_DETAILS | DATE_SELECTION
  | CONFIRMATION | COMPLETED
  | SERVICE_SELECTION | TIER_SELECTION | VEHICLE_TYPE | SLOT_SELECTION
  | ADDRESS_COLLECTION
  | CANCELLED.

Definition state_value (s : ConversationState) : string :=
  match s with
  | GREETING => "greeting"
  | NAME_COLLECTION => "name_collection"
  | VEHICLE_DETAILS => "vehicle_details"
  | DATE_SELECTION => "date_selection"
  | CONFIRMATION => "confirmation"
  | COMPLETED => "completed"
  | SERVICE_SELECTION => "service_selection"
  | TIER_SELECTION => "tier_selection"
  | VEHICLE_TYPE => "vehicle_type"
  | SLOT_SELECTION => "slot_selection"
  | ADDRESS_COLLECTION => "address_collection"
  | CANCELLED => "cancelled"
  end.

Definition state_eqb (a b : ConversationState) : bool :=
  String.eqb (state_value a) (state_value b).

(** [StateTransitionRules.VALID_TRANSITIONS] *)
Definition VALID_TRANSITIONS (s : ConversationState) : list ConversationState :=
  match s with
  | GREETING => [NAME_COLLECTION; SERVICE_SELECTION]
  | NAME_COLLECTION => [VEHICLE_DETAILS; SERVICE_SELECTION]
  | SERVICE_SELECTION => [NAME_COLLECTION; VEHICLE_DETAILS]
  | VEHICLE_DETAILS =>
      [DATE_SELECTION; CONFIRMATION; NAME_COLLECTION; SERVICE_SELECTION]
  | DATE_SELECTION => [CONFIRMATION; VEHICLE_DETAILS]
  | CONFIRMATION => [COMPLETED; DATE_SELECTION; CANCELLED]
  | COMPLETED => [GREETING]
  | CANCELLED => [GREETING]
  | TIER_SELECTION => [CONFIRMATION]
  | VEHICLE_TYPE => [VEHICLE_DETAILS]
  | SLOT_SELECTION => [CONFIRMATION]
  | ADDRESS_COLLECTION => [CONFIRMATION]
  end.

(** [DataRequirements.REQUIREMENTS.get(state, [])] (retroactive_validator.py) *)
Definition REQUIREMENTS (state : string) : list string :=
  if String.eqb state "greeting" then []
  else if String.eqb state "name_collection" then ["first_name"; "last_name"]
  else if String.eqb state "service_selection" then ["first_name"]
  else if String.eqb state "vehicle_details" then
    ["first_name"; "vehicle_brand"; "vehicle_model"; "vehicle_plate"]
  else if String.eqb state "date_selection" then
    ["first_name"; "vehicle_brand"; "vehicle_model"; "vehicle_plate";
     "appointment_date"]
  else if String.eqb state "confirmation" then
    ["first_name"; "vehicle_brand"; "vehicle_model"; "vehicle_plate";
     "appointment_date"]
  else if String.eqb state "completed" then
    ["first_name"; "vehicle_brand"; "vehicle_model"; "vehicle_plate";
     "appointment_date"]
  else [].

(** ** Write paths into the scratchpad *)

(** The section and scratchpad field chosen for a collected field name in step
    8.4 of [MessageProcessor.process_message]; [None] is the skipped case. *)
Definition orchestrator_target (field_name : string) : option (string * string) :=
  if PyStr.mem field_name
       ["first_name"; "last_name"; "full_name"; "phone"; "address"]
  then Some ("customer", field_name)
  else if PyStr.mem field_name
            ["vehicle_brand"; "vehicle_model"; "vehicle_plate"; "vehicle_type"]
  then Some ("vehicle",
             rename_get [("vehicle_brand", "brand"); ("vehicle_model", "model");
                         ("vehicle_plate", "plate");
                         ("vehicle_type", "vehicle_type")] field_name)
  else if PyStr.mem field_name
            ["appointment_date"; "service_type"; "service_tier"; "time_slot";
             "notes"]
  then Some ("appointment",
             rename_get [("appointment_date", "date");
                         ("service_type", "service_type");
                         ("service_tier", "service_tier");
                         ("time_slot", "time_slot"); ("notes", "notes")]
               field_name)
  else None.

(** One iteration of the loop of step 8.4. *)
Definition populate_one (now : datetime) (sp : ScratchpadManager)
    (kv : string * pyval) : ScratchpadManager :=
  match kv.2 with
  | None => sp
  | Some _ =>
      match orchestrator_target kv.1 with
      | None => sp
      | Some (section, scratchpad_field) =>
          (add_field now sp section scratchpad_field kv.2 "collection" 0 100
             "collected" "initial_entry").2
      end
  end.

(** Step 8.4 of [process_message]: every collected field goes to the
    scratchpad with [turn=0]. *)
Definition populate_scratchpad (now : datetime) (sp : ScratchpadManager)
    (all_collected_data : pydict) : ScratchpadManager :=
  fold_left (populate_one now) all_collected_data sp.

(** [ScratchpadCoordinator.update_from_extraction] *)
Definition update_from_extraction (now : datetime) (sp : ScratchpadManager)
    (state : ConversationState) (field_name : string) (v : pyval)
  : ScratchpadManager :=
  match state with
  | NAME_COLLECTION =>
      if PyStr.mem field_name ["first_name"; "last_name"; "full_name"] then
        (add_field now sp "customer" field_name v "extraction" 0 100 "user"
           "initial_entry").2
      else sp
  | VEHICLE_DETAILS =>
      let scratchpad_field :=
        rename_get [("vehicle_brand", "brand"); ("vehicle_model", "model");
                    ("vehicle_plate", "plate")] field_name in
      (add_field now sp "vehicle" scratchpad_field v "extraction" 0 100 "user"
         "initial_entry").2
  | DATE_SELECTION =>
      let scratchpad_field :=
        rename_get [("appointment_date", "date")] field_name in
      (add_field now sp "appointment" scratchpad_field v "extraction" 0 100
         "user" "initial_entry").2
  | _ => sp
  end.

(** Step 10 of [process_message]: the loop over [extracted_data]. *)
Definition update_all_from_extraction (now : datetime) (sp : ScratchpadManager)
    (state : ConversationState) (extracted_data : pydict) : ScratchpadManager :=
  fold_left (fun acc kv => update_from_extraction now acc state kv.1 kv.2)
    extracted_data sp.

(** [s.endswith(suffix)] *)
Definition endswith (s suffix : string) : bool :=
  String.prefix (String.rev suffix) (String.rev s).

(** The table of [ScratchpadCoordinator.add_optional_fields]. *)
Definition optional_field_mapping (field_name : string)
  : option (string * string) :=
  if String.eqb field_name "service_type" then
    Some ("appointment", "service_type")
  else if String.eqb field_name "service_tier" then
    Some ("appointment", "service_tier")
  else if String.eqb field_name "time_slot" then
    Some ("appointment", "time_slot")
  else if String.eqb field_name "notes" then Some ("appointment", "notes")
  else if String.eqb field_name "vehicle_type" then
    Some ("vehicle", "vehicle_type")
  else if String.eqb field_name "address" then Some ("customer", "address")
  else None.

(** [x or dflt] for a string or [None]. *)
Definition or_string (x : option string) (dflt : string) : string :=
  match x with
  | Some s => if PyStr.nonempty s then s else dflt
  | None => dflt
  end.

(** [x == text] for a value and a string. *)
Definition is_text (x : pyval) (text : string) : bool :=
  match x with
  | Some (Str s) => String.eqb s text
  | _ => false
  end.

(** One iteration of the loop of [add_optional_fields].  The extraction
    method that is read from the dictionary can be of any type.  It is handed
    to [add_field], where [FieldEntry] takes a string or [None] for it and
    raises a validation error on anything else; the entry is built after the
    tests of [add_field] on the value and on the turn.  The result [None] is
    that error, which [add_optional_fields] does not catch. *)
Definition add_optional_one (now : datetime) (optional_data : pydict)
    (sp : ScratchpadManager) (kv : string * pyval)
  : option ScratchpadManager :=
  let field_name := kv.1 in
  if endswith field_name "_method" then Some sp
  else
    match optional_field_mapping field_name with
    | None => Some sp
    | Some (section, scratchpad_field) =>
        let method :=
          default (Some (Str "explicit"))
            (dict_get optional_data (field_name ++ "_method")) in
        let existing_field := get_field sp section scratchpad_field in
        let protected :=
          match existing_field with
          | Some e =>
              truthy (value e)
              && String.eqb (or_string (extraction_method e) "explicit")
                   "explicit"
              && is_text method "inferred"
          | None => false
          end in
        if protected then Some sp
        else
          match method with
          | None =>
              Some (add_field_with now sp section scratchpad_field kv.2
                      "extraction" 0 100 None "initial_entry").2
          | Some (Str m) =>
              Some (add_field now sp section scratchpad_field kv.2
                      "extraction" 0 100 m "initial_entry").2
          | Some (Obj _ _) =>
              if (add_field_with now sp section scratchpad_field kv.2
                    "extraction" 0 100 None "initial_entry").1
              then None
              else Some sp
          end
    end.

(** The loop of [add_optional_fields]: an iteration that raises ends it. *)
Fixpoint add_optional_loop (now : datetime) (optional_data : pydict)
    (items : pydict) (sp : ScratchpadManager) : bool * ScratchpadManager :=
  match items with
  | [] => (false, sp)
  | kv :: items' =>
      match add_optional_one now optional_data sp kv with
      | Some sp' => add_optional_loop now optional_data items' sp'
      | None => (true, sp)
      end
  end.

(** [ScratchpadCoordinator.add_optional_fields]: whether the call raises, and
    the scratchpad as the call leaves it. *)
Definition add_optional_fields (now : datetime) (sp : ScratchpadManager)
    (optional_data : pydict) : bool * ScratchpadManager :=
  add_optional_loop now optional_data optional_data sp.

(** The table of [BookingFlowManager._add_extracted_data]. *)
Definition section_map (key : string) : option (string * string) :=
  if String.eqb key "first_name" then Some ("customer", "first_name")
  else if String.eqb key "last_name" then Some ("customer", "last_name")
  else if String.eqb key "phone" then Some ("customer", "phone")
  else if String.eqb key "email" then Some ("customer", "email")
  else if String.eqb key "vehicle_brand" then Some ("vehicle", "brand")
  else if String.eqb key "vehicle_model" then Some ("vehicle", "model")
  else if String.eqb key "appointment_date" then Some ("appointment", "date")
  else if String.eqb key "service_type" then Some ("appointment", "service_type")
  else None.

(** [len(self.scratchpad.form.metadata.get(key_turns, [])) + 1] *)
Definition booking_flow_turn (sp : ScratchpadManager) : Z :=
  Z.of_nat (default 0%nat (turns (metadata (form sp)))) + 1.

(** [BookingFlowManager._add_extracted_data]; the turn is computed once, before
    the loop. *)
Definition _add_extracted_data (now : datetime) (sp : ScratchpadManager)
    (extracted_data : pydict) : ScratchpadManager :=
  match extracted_data with
  | [] => sp
  | _ =>
      let t := booking_flow_turn sp in
      fold_left
        (fun acc kv =>
           match kv.2 with
           | None => acc
           | Some _ =>
               match section_map kv.1 with
               | Some (section, field_name) =>
                   (add_field now acc section field_name kv.2
                      "direct_extraction" t 85 "user" "initial_entry").2
               | None => acc
               end
           end)
        extracted_data sp
  end.

(** ** Conversation context *)

(** The keys of [ConversationContext.metadata] used by the confirmation flow. *)
Record ContextMeta : Type := mkContextMeta {
  service_request_id : option string;
  confirmation_attempts : option Z;
  booking_completed : option bool;
  retroactive_enabled : option bool;
  booking_confirmed_at : option datetime
}.

Record ConversationContext : Type := mkContext {
  state : ConversationState;
  user_data : pydict;
  ctx_metadata : ContextMeta
}.

Definition new_context_meta : ContextMeta :=
  mkContextMeta None None None None None.

Definition set_service_request_id (m : ContextMeta) (id : string) : ContextMeta :=
  mkContextMeta (Some id) (confirmation_attempts m) (booking_completed m)
    (retroactive_enabled m) (booking_confirmed_at m).

Definition set_confirmation_attempts (m : ContextMeta) (n : Z) : ContextMeta :=
  mkContextMeta (service_request_id m) (Some n) (booking_completed m)
    (retroactive_enabled m) (booking_confirmed_at m).

Definition set_booking_completed (m : ContextMeta) (b : bool) : ContextMeta :=
  mkContextMeta (service_request_id m) (confirmation_attempts m) (Some b)
    (retroactive_enabled m) (booking_confirmed_at m).

Definition set_retroactive_enabled (m : ContextMeta) (b : bool) : ContextMeta :=
  mkContextMeta (service_request_id m) (confirmation_attempts m)
    (booking_completed m) (Some b) (booking_confirmed_at m).

Definition set_booking_confirmed_at (m : ContextMeta) (t : datetime) : ContextMeta :=
  mkContextMeta (service_request_id m) (confirmation_attempts m)
    (booking_completed m) (retroactive_enabled m) (Some t).

Definition with_metadata (c : ConversationContext) (m : ContextMeta)
  : ConversationContext :=
  mkContext (state c) (user_data c) m.

(** Modelled from the spec: [ConversationManager.update_state] is not among the
    sources.  A transition request that is not in the edge table is rejected
    and leaves the state unchanged; a legal one sets the state. *)
Definition update_state (c : ConversationContext) (target : ConversationState)
  : ConversationContext :=
  if existsb (state_eqb target) (VALID_TRANSITIONS (state c))
  then mkContext target (user_data c) (ctx_metadata c)
  else c.

(** ** Service requests and the persistence sink *)

Record ServiceRequest : Type := mkServiceRequest {
  sr_id : string;
  sr_conversation_id : string;
  sr_customer : gmap string pyval;
  sr_vehicle : gmap string pyval;
  sr_appointment : gmap string pyval
}.

(** What [dump_service_request] writes to its file. *)
Record Snapshot : Type := mkSnapshot {
  snap_id : string;
  snap_conversation_id : string;
  snap_customer : gmap string pyval;
  snap_vehicle : gmap string pyval;
  snap_appointment : gmap string pyval;
  snap_completeness : Z;
  snap_confirmation_method : string
}.

(** Everything outside one conversation that finalization acts on: the service
    requests built so far and the snapshots written so far, oldest first. *)
Record World : Type := mkWorld {
  built : list ServiceRequest;
  dumped : list Snapshot
}.

Definition empty_world : World := mkWorld [] [].

(** [{k: v.value for k, v in section.items() if v.value is not None}] *)
Definition values_not_none (d : gmap string FieldEntry) : gmap string pyval :=
  value <$> filter (fun kv => value kv.2 ≠ None) d.

(** The section copy of a service request: the entries that count as filled. *)
Definition values_filled (d : gmap string FieldEntry) : gmap string pyval :=
  value <$> filter (fun kv => counts_as_filled (value kv.2) = true) d.

(** [dump_service_request]; [fails] says that writing the file raises, in which
    case nothing is recorded. *)
Definition dump_service_request (fails : bool) (w : World) (id cid : string)
    (sp : ScratchpadManager) (confirmation_method : string) : option World :=
  if fails then None
  else
    Some (mkWorld (built w)
            (dumped w ++
             [mkSnapshot id cid
                (values_not_none (customer (form sp)))
                (values_not_none (vehicle (form sp)))
                (values_not_none (appointment (form sp)))
                (get_completeness sp) confirmation_method])).

Inductive ConfirmationAction : Type :=
  | CONFIRM | EDIT | CANCEL | INVALID | TYPO_DETECTED.

(** What [process_for_booking] answers, without the wording. *)
Inductive Reply : Type :=
  | ReplySummary
  | ReplyTypoSuggestion
  | ReplyConfirmed (reference : string)
  | ReplyCancelled
  | ReplyDataSaved (completeness : Z).

(** What the confirmation endpoint answers: a response with the identifier
    of the service request, or error 500. *)
Inductive ConfirmationResponse : Type :=
  | Response (service_request_id : option string)
  | HTTP_500.

Section Finalization.

(** The identifier given to the [n]-th service request.
    [ServiceRequestBuilder] is not among the sources; its identifiers are
    taken as given. *)
Variable gen_id : nat -> string.

(** The effect of [ConfirmationHandler.handle_edit] on the scratchpad for an
    edit message; [ConfirmationHandler] is not among the sources. *)
Variable handle_edit : ScratchpadManager -> string -> ScratchpadManager.

(** Modelled from the spec: [ServiceRequestBuilder.build] is not among the
    sources.  It copies all non-placeholder fields of the three sections
    into a new service request with a new identifier, and leaves the
    scratchpad as it is. *)
Definition ServiceRequestBuilder_build (w : World) (sp : ScratchpadManager)
    (cid : string) : ServiceRequest * World :=
  let sr :=
    mkServiceRequest (gen_id (List.length (built w))) cid
      (values_filled (customer (form sp)))
      (values_filled (vehicle (form sp)))
      (values_filled (appointment (form sp))) in
  (sr, mkWorld (built w ++ [sr]) (dumped w)).

(** *** Step 8.5 of [MessageProcessor.process_message] *)

Definition confirm_keywords : list string :=
  ["yes"; "confirm"; "ok"; "okay"; "book"; "proceed"; "finalize"; "haan";
   "haa"].
Definition edit_keywords : list string :=
  ["edit"; "change"; "update"; "correct"; "modify"].
Definition cancel_keywords : list string := ["cancel"; "no"; "abort"].

(** [any(kw in user_message.lower() for kw in confirm_keywords)] *)
Definition user_confirmed_keywords (user_message : string) : bool :=
  PyStr.any_in confirm_keywords (PyStr.lower user_message).

(** The answer of the detector, or the keyword test when it raises. *)
Definition user_confirmed_dspy (user_message : string)
    (detector : option string) : bool :=
  match detector with
  | Some is_confirming => String.eqb (PyStr.lower is_confirming) "true"
  | None => user_confirmed_keywords user_message
  end.

Definition user_confirmed (user_message : string) (detector : option string)
  : bool :=
  user_confirmed_keywords user_message
  || user_confirmed_dspy user_message detector.

Definition user_wants_edit (user_message : string) : bool :=
  PyStr.any_in edit_keywords (PyStr.lower user_message).

Definition user_wants_cancel (user_message : string) : bool :=
  PyStr.any_in cancel_keywords (PyStr.lower user_message).

(** Truthiness of [context.metadata.get(key)] for a string. *)
Definition truthy_id (id : option string) : bool :=
  match id with
  | Some s => PyStr.nonempty s
  | None => false
  end.

(** The confirmation block.  [detector] is the outcome of the DSPy
    confirmation detector: [Some s] when it answers with [is_confirming = s],
    [None] when the call or the reading of its answer raises.  The result is
    the local [service_request_id], the context and the world. *)
Definition confirmation_flow (mode : Config.ConfirmationMode)
    (w : World) (cid : string) (ctx : ConversationContext)
    (sp : ScratchpadManager) (current_state : ConversationState)
    (has_all_required : bool) (user_message : string)
    (detector : option string)
  : option string * ConversationContext * World :=
  if state_eqb current_state CONFIRMATION && has_all_required then
    let confirmation_attempts0 :=
      default 0 (confirmation_attempts (ctx_metadata ctx)) in
    let confirmed := user_confirmed user_message detector in
    let wants_edit := user_wants_edit user_message in
    let wants_cancel := user_wants_cancel user_message in
    let attempts := confirmation_attempts0 + 1 in
    let ctx1 :=
      with_metadata ctx (set_confirmation_attempts (ctx_metadata ctx) attempts) in
    let auto_confirmed :=
      Config.CONFIRMATION_AUTO_CONFIRM_ATTEMPTS <=? attempts in
    if (auto_confirmed && negb wants_edit && negb wants_cancel) || confirmed
    then
      match mode with
      | Config.CHAT =>
          let existing_service_request_id :=
            service_request_id (ctx_metadata ctx1) in
          let scratchpad_completeness := get_completeness sp in
          if truthy_id existing_service_request_id
             && (scratchpad_completeness =? 0)
          then (existing_service_request_id, ctx1, w)
          else
            let '(service_request, w1) :=
              ServiceRequestBuilder_build w sp cid in
            let m1 :=
              set_service_request_id (ctx_metadata ctx1)
                (sr_id service_request) in
            let m2 := set_confirmation_attempts m1 0 in
            let m3 := set_booking_completed m2 true in
            (Some (sr_id service_request), with_metadata ctx1 m3, w1)
      | Config.BUTTON => (None, ctx1, w)
      end
    else if wants_edit || wants_cancel then
      (None,
       with_metadata ctx1 (set_confirmation_attempts (ctx_metadata ctx1) 0),
       w)
    else (None, ctx1, w)
  else (None, ctx, w).

(** *** The dump-and-clear tail *)

(** Lines 468-491 of message_processor.py: the failure of the dump is logged
    and the scratchpad is cleared afterwards. *)
Definition chat_dump_and_clear (mode : Config.ConfirmationMode)
    (dump_fails : bool) (w : World) (cid : string) (sp : ScratchpadManager)
    (service_request_id : option string) : ScratchpadManager * World :=
  match mode with
  | Config.CHAT =>
      if truthy_id service_request_id then
        if get_completeness sp =? 0 then (sp, w)
        else
          let w1 :=
            match dump_service_request dump_fails w
                    (default EmptyString service_request_id) cid sp "chat" with
            | Some w' => w'
            | None => w
            end in
          (clear_all sp, w1)
      else (sp, w)
  | Config.BUTTON => (sp, w)
  end.

(** Lines 340-365 of main.py, for the scratchpad shared with the booking
    manager. *)
Definition button_dump_and_clear (dump_fails : bool) (w : World)
    (cid : string) (sp : ScratchpadManager)
    (service_request_id : option string) : ScratchpadManager * World :=
  if truthy_id service_request_id then
    if get_completeness sp =? 0 then (sp, w)
    else
      let w1 :=
        match dump_service_request dump_fails w
                (default EmptyString service_request_id) cid sp "button" with
        | Some w' => w'
        | None => w
        end in
      (clear_all sp, w1)
  else (sp, w).

(** *** [MessageProcessor.process_message] from step 8 on *)

(** What the collaborators of one turn answer: the extraction result after
    the retroactive merge, the confirmation detector, the state coordinator
    and the file system. *)
Record TurnInputs : Type := mkTurnInputs {
  in_message : string;
  in_extracted : option pydict;
  in_detector : option string;
  in_next_state : ConversationState;
  in_dump_fails : bool;
  in_now : datetime
}.

Record TurnResult : Type := mkTurnResult {
  res_service_request_id : option string;
  res_state : ConversationState;
  res_completeness : Z;
  res_context : ConversationContext;
  res_scratchpad : ScratchpadManager;
  res_world : World
}.

Definition or_empty (d : option pydict) : pydict := default [] d.

(** Names for parts of [process_message], as it is written below. *)

(** The test of step 8: every field required for CONFIRMATION is a key of
    the merged data. *)
Definition has_all_required (ctx : ConversationContext)
    (extracted_data : option pydict) : bool :=
  issubset (REQUIREMENTS (state_value CONFIRMATION))
    (dict_keys (dict_merge (user_data ctx) (or_empty extracted_data))).





Definition process_message (mode : Config.ConfirmationMode) (w : World)
    (cid : string) (ctx : ConversationContext) (sp : ScratchpadManager)
    (i : TurnInputs) : TurnResult :=
  let current_state := state ctx in
  let extracted_data := in_extracted i in
  (* 8 *)
  let merged_data := dict_merge (user_data ctx) (or_empty extracted_data) in
  let extracted_fields := dict_keys merged_data in
  let has_all_required :=
    issubset (REQUIREMENTS (state_value CONFIRMATION)) extracted_fields in
  (* 8.4 *)
  let all_collected_data :=
    dict_merge (user_data ctx) (or_empty extracted_data) in
  let sp1 := populate_scratchpad (in_now i) sp all_collected_data in
  (* 8.5 *)
  let '(service_request_id, ctx1, w1) :=
    confirmation_flow mode w cid ctx sp1 current_state has_all_required
      (in_message i) (in_detector i) in
  (* 9 *)
  let next_state := in_next_state i in
  let ctx2 :=
    if state_eqb next_state current_state then ctx1
    else update_state ctx1 next_state in
  let ctx3 :=
    if state_eqb next_state COMPLETED
       && default false (booking_completed (ctx_metadata ctx2))
    then with_metadata ctx2 (set_retroactive_enabled (ctx_metadata ctx2) false)
    else ctx2 in
  (* 10 *)
  let sp2 :=
    match extracted_data, service_request_id with
    | Some (kv :: d), None =>
        update_all_from_extraction (in_now i) sp1 next_state (kv :: d)
    | _, _ => sp1
    end in
  let scratchpad_completeness := get_completeness sp2 in
  let '(sp3, w2) :=
    chat_dump_and_clear mode (in_dump_fails i) w1 cid sp2 service_request_id in
  mkTurnResult service_request_id next_state scratchpad_completeness ctx3 sp3 w2.

(** *** [BookingFlowManager.process_for_booking] *)

(** What the collaborators of the booking flow answer:
    [BookingIntentDetector.should_trigger_confirmation] and the action read
    from the message when no explicit action is given. *)
Record BookingInputs : Type := mkBookingInputs {
  bk_message : string;
  bk_extracted : pydict;
  bk_action_param : option string;
  bk_should_confirm : bool;
  bk_detected_action : ConfirmationAction;
  bk_typo_result : bool;
  bk_now : datetime
}.

Definition action_of_param (action_param : string) : ConfirmationAction :=
  let action_lower := PyStr.lower action_param in
  if String.eqb action_lower "confirm" then CONFIRM
  else if String.eqb action_lower "edit" then EDIT
  else if String.eqb action_lower "cancel" then CANCEL
  else INVALID.

Definition process_for_booking (w : World) (cid : string)
    (ctx : ConversationContext) (sp : ScratchpadManager) (i : BookingInputs)
  : Reply * option ServiceRequest * ConversationContext * ScratchpadManager
    * World :=
  let current_state := state ctx in
  let sp1 := _add_extracted_data (bk_now i) sp (bk_extracted i) in
  let continue_collection :=
    (ReplyDataSaved (get_completeness sp1), None, ctx, sp1, w) in
  if bk_should_confirm i && negb (state_eqb current_state CONFIRMATION) then
    (ReplySummary, None, update_state ctx CONFIRMATION, sp1, w)
  else if state_eqb current_state CONFIRMATION then
    let action :=
      match bk_action_param i with
      | Some p => if PyStr.nonempty p then action_of_param p
                  else bk_detected_action i
      | None => bk_detected_action i
      end in
    match action with
    | TYPO_DETECTED =>
        if bk_typo_result i then (ReplyTypoSuggestion, None, ctx, sp1, w)
        else continue_collection
    | CONFIRM =>
        let '(service_request, w1) := ServiceRequestBuilder_build w sp1 cid in
        let ctx1 := update_state ctx COMPLETED in
        let m1 :=
          set_service_request_id (ctx_metadata ctx1) (sr_id service_request) in
        let m2 := set_booking_confirmed_at m1 (bk_now i) in
        (ReplyConfirmed (sr_id service_request), Some service_request,
         with_metadata ctx1 m2, sp1, w1)
    | EDIT =>
        (ReplySummary, None, ctx, handle_edit sp1 (bk_message i), w)
    | CANCEL =>
        (ReplyCancelled, None, update_state ctx CANCELLED, sp1, w)
    | INVALID => continue_collection
    end
  else continue_collection.

(** *** [handle_confirmation] of main.py

    Modelled from the spec: [BookingOrchestrationBridge] is not among the
    sources.  As the comments of [handle_confirmation] say, it runs the
    booking flow on the context and the scratchpad shared with the chat
    endpoint, with an empty extraction and the action of the request;
    [get_booking_state] reads the state of that context.

    The three fields of the request body are strings, or [None] when the
    key is missing.  When one of them is falsy the handler raises error 422
    before anything runs, and its own [except] raises it again as error
    500. *)
Definition handle_confirmation (w : World) (conversation_id : option string)
    (ctx : ConversationContext) (sp : ScratchpadManager)
    (user_input action : option string) (now : datetime) (dump_fails : bool)
    (should_confirm : bool)
  : ConfirmationResponse * ConversationContext * ScratchpadManager * World :=
  if negb (truthy_id conversation_id) || negb (truthy_id user_input)
     || negb (truthy_id action)
  then (HTTP_500, ctx, sp, w)
  else
    let cid := default EmptyString conversation_id in
    let '(_, service_request, ctx1, sp1, w1) :=
      process_for_booking w cid ctx sp
        (mkBookingInputs (default EmptyString user_input) [] action
           should_confirm INVALID false now) in
    (* layer 1 *)
    let id1 := option_map sr_id service_request in
    (* layer 2 *)
    let id2 :=
      if truthy_id id1 then id1 else service_request_id (ctx_metadata ctx1) in
    (* layer 3 *)
    let '(id3, ctx2, w2) :=
      if negb (truthy_id id2) && state_eqb (state ctx1) COMPLETED then
        let '(rebuilt, w') := ServiceRequestBuilder_build w1 sp1 cid in
        (Some (sr_id rebuilt),
         with_metadata ctx1
           (set_service_request_id (ctx_metadata ctx1) (sr_id rebuilt)),
         w')
      else (id2, ctx1, w1) in
    let '(sp2, w3) := button_dump_and_clear dump_fails w2 cid sp1 id3 in
    (Response id3, ctx2, sp2, w3).

End Finalization.

(** ** retroactive_validator.py: the retroactive name scan *)

(** A transcript entry; [None] stands for a missing key. *)
Record Message : Type := mkMessage {
  role : option string;
  content : option string
}.

(** What one call of the name extractor gives: it raises, or it answers with a
    [first_name] and, when the answer has that attribute, a [last_name]. *)
Inductive NameExtraction : Type :=
  | ExtractionRaises
  | Extracted (first_name : pyval) (last_name : option pyval).

Record ValidatedName : Type := mkValidatedName {
  vn_first_name : string;
  vn_last_name : string;
  vn_full_name : string;
  vn_confidence : confidence_t;
  vn_extraction_method : string;
  vn_extraction_source : string
}.

Section RetroactiveScanner.

(** The values of [VehicleBrandEnum]; models.py is not among the sources. *)
Variable VehicleBrandEnum : list string.

(** [filter_dspy_history_to_user_only]; history_utils.py is not among the
    sources. *)
Variable filter_dspy_history_to_user_only : list Message -> list Message.

(** The DSPy name extractor, called with the filtered history and one
    message. *)
Variable name_extractor : list Message -> string -> NameExtraction.

(** Whether the validators of [ValidatedName] accept a first, last and full
    name; when they do not, the constructor raises. *)
Variable ValidatedName_accepts : string -> string -> string -> bool.

(** [RetroactiveScanner._is_vehicle_brand] *)
Definition _is_vehicle_brand (text : string) : bool :=
  if negb (PyStr.nonempty text) || negb (PyStr.nonempty (PyStr.strip text))
  then false
  else
    let text_lower := PyStr.strip (PyStr.lower text) in
    existsb
      (fun brand =>
         PyStr.contains (PyStr.lower brand) text_lower
         || PyStr.contains text_lower (PyStr.lower brand))
      VehicleBrandEnum.

(** [str(x).strip().strip(q)] with [q] the two quote characters. *)
Definition sanitize (x : pyval) : string :=
  PyStr.strip_quotes (PyStr.strip (py_str x)).

(** The loop of [scan_for_name] over the messages, most recent first. *)
Fixpoint scan_messages (user_only_history : list Message)
    (messages : list string) : option ValidatedName :=
  match messages with
  | [] => None
  | message :: rest =>
      match name_extractor user_only_history message with
      | ExtractionRaises => scan_messages user_only_history rest
      | Extracted first last =>
          let first_name := sanitize first in
          let last_name :=
            match last with
            | Some l => sanitize l
            | None => EmptyString
            end in
          if _is_vehicle_brand first_name || _is_vehicle_brand last_name then
            scan_messages user_only_history rest
          else if PyStr.nonempty first_name
                  && PyStr.mem (PyStr.lower first_name)
                       Config.GREETING_STOPWORDS then
            scan_messages user_only_history rest
          else if PyStr.nonempty first_name
                  && negb (PyStr.mem (PyStr.lower first_name)
                             ["none"; "n/a"; "unknown"]) then
            let full_name := PyStr.strip (first_name ++ " " ++ last_name) in
            if ValidatedName_accepts first_name last_name full_name then
              Some (mkValidatedName first_name last_name full_name 80 "dspy"
                      message)
            else scan_messages user_only_history rest
          else scan_messages user_only_history rest
      end
  end.

(** [messages[-scan_limit:] if len(messages) > scan_limit else messages] *)
Definition recent (scan_limit : nat) (messages : list Message)
  : list Message :=
  if (scan_limit <? List.length messages)%nat
  then drop (List.length messages - scan_limit) messages
  else messages.

(** [RetroactiveScanner.scan_for_name]; a history of [None] is the case of
    no history. *)
Definition scan_for_name (history : option (list Message))
  : option ValidatedName :=
  match history with
  | None => None
  | Some messages =>
      let user_only_history := filter_dspy_history_to_user_only messages in
      let recent_messages :=
        recent Config.RETROACTIVE_SCAN_LIMIT user_only_history in
      let user_messages :=
        map (fun msg => default EmptyString (content msg))
          (filter (fun msg => role msg = Some "user") recent_messages) in
      match user_messages with
      | [] => None
      | _ => scan_messages user_only_history (rev user_messages)
      end
  end.

End RetroactiveScanner.

(** ** Sequences of scratchpad operations *)

(** The public mutating operations of [ScratchpadManager]. *)
Inductive ManagerOp : Type :=
  | OpAddField (now : datetime) (section field_name : string) (v : pyval)
      (src : string) (new_turn : Z) (conf : confidence_t)
      (method edit_src : string)
  | OpUpdateField (section field_name : string) (new_value : pyval)
  | OpDeleteField (section : FormAttr) (field_name : string)
  | OpClearAll.

Definition run_op (sp : ScratchpadManager) (op : ManagerOp) : ScratchpadManager :=
  match op with
  | OpAddField now section field_name v src new_turn conf method edit_src =>
      (add_field now sp section field_name v src new_turn conf method edit_src).2
  | OpUpdateField section field_name new_value =>
      (update_field sp section field_name new_value).2
  | OpDeleteField section field_name => (delete_field sp section field_name).2
  | OpClearAll => clear_all sp
  end.

Definition run_ops (sp : ScratchpadManager) (ops : list ManagerOp)
  : ScratchpadManager :=
  fold_left run_op ops sp.

(** The code that calls [add_field]: step 8.4 of the orchestrator, the two
    writers of the scratchpad coordinator, the booking flow manager, and
    [set_time_slot] of the scratchpad itself. *)
Inductive SiteCall : Type :=
  | CallPopulate (now : datetime) (all_collected_data : pydict)
  | CallUpdateFromExtraction (now : datetime) (state : ConversationState)
      (field_name : string) (v : pyval)
  | CallAddOptionalFields (now : datetime) (optional_data : pydict)
  | CallAddExtractedData (now : datetime) (extracted_data : pydict)
  | CallSetTimeSlot (now : datetime) (validated_time_slot : TimeSlotArg).

Definition run_call (sp : ScratchpadManager) (c : SiteCall) : ScratchpadManager :=
  match c with
  | CallPopulate now d => populate_scratchpad now sp d
  | CallUpdateFromExtraction now st k v => update_from_extraction now sp st k v
  | CallAddOptionalFields now d => (add_optional_fields now sp d).2
  | CallAddExtractedData now d => _add_extracted_data now sp d
  | CallSetTimeSlot now slot => (set_time_slot now sp slot).2
  end.

(** The turn number a call site passes to [add_field]. *)
Definition site_turn (sp : ScratchpadManager) (c : SiteCall) : Z :=
  match c with
  | CallPopulate _ _ => 0
  | CallUpdateFromExtraction _ _ _ _ => 0
  | CallAddOptionalFields _ _ => 0
  | CallAddExtractedData _ _ => booking_flow_turn sp
  | CallSetTimeSlot _ _ => 0
  end.

(** The places in the code that call [add_field]. *)
Inductive Site : Type :=
  | SiteStep84
  | SiteUpdateFromExtraction
  | SiteAddOptionalFields
  | SiteAddExtractedData
  | SiteSetTimeSlot.

Definition site_of (c : SiteCall) : Site :=
  match c with
  | CallPopulate _ _ => SiteStep84
  | CallUpdateFromExtraction _ _ _ _ => SiteUpdateFromExtraction
  | CallAddOptionalFields _ _ => SiteAddOptionalFields
  | CallAddExtractedData _ _ => SiteAddExtractedData
  | CallSetTimeSlot _ _ => SiteSetTimeSlot
  end.

(** The writers that keep every field in the section the orchestrator assigns
    to it: step 8.4, the booking flow manager, and the in-place operations. *)
Inductive HomeOp : Type :=
  | HomePopulate (now : datetime) (all_collected_data : pydict)
  | HomeAddExtractedData (now : datetime) (extracted_data : pydict)
  | HomeUpdateField (section field_name : string) (new_value : pyval)
  | HomeDeleteField (section : FormAttr) (field_name : string)
  | HomeClearAll.

Definition run_home (sp : ScratchpadManager) (op : HomeOp) : ScratchpadManager :=
  match op with
  | HomePopulate now d => populate_scratchpad now sp d
  | HomeAddExtractedData now d => _add_extracted_data now sp d
  | HomeUpdateField section field_name v => (update_field sp section field_name v).2
  | HomeDeleteField section field_name => (delete_field sp section field_name).2
  | HomeClearAll => clear_all sp
  end.

(** Whether a write at turn [t] passes the turn comparison of [add_field]:
    there is no entry, or the entry has no turn, or its turn is below [t]. *)
Definition stored_turn_below (sp : ScratchpadManager) (section field_name : string)
    (t : Z) : bool :=
  match get_field sp section field_name with
  | Some e =>
      match turn e with
      | Some t0 => t0 <? t
      | None => true
      end
  | None => true
  end.

(** The stored percentage agrees with the fields that are stored. *)
Definition completeness_consistent (sp : ScratchpadManager) : Prop :=
  get_completeness sp = completeness_of (filled_count (form sp)).

Definition run_calls (sp : ScratchpadManager) (calls : list SiteCall)
  : ScratchpadManager :=
  fold_left run_call calls sp.

Definition run_homes (sp : ScratchpadManager) (ops : list HomeOp)
  : ScratchpadManager :=
  fold_left run_home ops sp.

(** What one name of [required_fields] adds to [filled_required] for one
    section. *)
Definition required_indicator (d : gmap string FieldEntry) (field_name : string)
  : Z :=
  match d !! field_name with
  | Some e =>
      if truthy (value e) then
        if PyStr.mem (PyStr.lower (py_str (value e))) PLACEHOLDERS then 0 else 1
      else 0
  | None => 0
  end.

(** Whether [field_name] is no required name, or is a required name in the
    section that step 8.4 assigns to it. *)
Definition home_allowed (section field_name : string) : bool :=
  negb (PyStr.mem field_name required_fields)
  || (String.eqb section "customer"
      && PyStr.mem field_name ["first_name"; "last_name"; "phone"])
  || (String.eqb section "vehicle"
      && PyStr.mem field_name ["brand"; "model"; "plate"])
  || (String.eqb section "appointment" && String.eqb field_name "date").

(** Every stored field is in a section where [home_allowed] holds. *)
Definition home_inv (sp : ScratchpadManager) : Prop :=
  forall section field_name,
    valid_section section = true ->
    is_Some (getattr_section (form sp) section !! field_name) ->
    home_allowed section field_name = true.

(** Every required name is in its own section only and the flag is not set. *)
Definition never_bookable (sp : ScratchpadManager) : Prop :=
  home_inv sp /\ is_bookable (metadata (form sp)) <> Some true.

(** ** The completeness formula in the words of the specification

    These two definitions do not come from the code: they say what the
    specification means by the number of filled entries and by rounding to
    one decimal, so that the percentage that [_update_completeness] stores
    can be compared with them. *)

(** An entry that is counted: its value is not [None], is truthy, and its
    text in lower case is none of unknown, none and the empty string. *)
Definition spec_counted (v : pyval) : bool :=
  match v with
  | None => false
  | Some (Str s) =>
      negb (String.eqb s EmptyString)
      && negb (String.eqb (PyStr.lower s) "unknown")
      && negb (String.eqb (PyStr.lower s) "none")
  | Some (Obj repr truth) =>
      truth
      && negb (String.eqb (PyStr.lower repr) "unknown")
      && negb (String.eqb (PyStr.lower repr) "none")
      && negb (String.eqb (PyStr.lower repr) EmptyString)
  end.

(** The number of counted entries of the three sections. *)
Definition spec_filled (f : ScratchpadForm) : Z :=
  Z.of_nat
    (size (filter (fun kv => spec_counted (value kv.2) = true) (customer f))
     + size (filter (fun kv => spec_counted (value kv.2) = true) (vehicle f))
     + size (filter (fun kv => spec_counted (value kv.2) = true)
               (appointment f))).

(** [r] tenths are [filled / total * 100] rounded to one decimal: no number
    of tenths is nearer, and [r] is even when two are equally near. *)
Definition spec_round1 (filled total r : Z) : Prop :=
  2 * Z.abs (total * r - 1000 * filled) <= total
  /\ (2 * Z.abs (total * r - 1000 * filled) = total -> Z.even r = true).

(** The percentage [c], in tenths, is
    [min(100, round(filled / TOTAL_POSSIBLE_FIELDS * 100, 1))]. *)
Definition spec_completeness (f : ScratchpadForm) (c : Z) : Prop :=
  exists r,
    spec_round1 (spec_filled f) Config.TOTAL_POSSIBLE_FIELDS r
    /\ c = Z.min 1000 r.

(** ** Concrete scenarios *)

Module Scenario.

Definition fresh : ScratchpadManager := new_scratchpad "conv-1" 0.

(** Scenario 1: a greeting word offered as a first name. *)
Definition add_haan : bool * ScratchpadManager :=
  add_field 1 fresh "customer" "first_name" (Some (Str "Haan")) "user" 1 100 "user"
    "initial_entry".

(** Scenarios 2 and 3: a first name, then a correction at a later turn. *)
Definition add_raj : bool * ScratchpadManager :=
  add_field 1 fresh "customer" "first_name" (Some (Str "Raj")) "user" 1 100 "user"
    "initial_entry".

Definition add_amit : bool * ScratchpadManager :=
  add_field 2 add_raj.2 "customer" "first_name" (Some (Str "Amit")) "user" 2 100
    "user" "user_edit".

(** A first name written at turn 5. *)
Definition raj_at_5 : bool * ScratchpadManager :=
  add_field 5 fresh "customer" "first_name" (Some (Str "Raj")) "user" 5 100
    "user" "initial_entry".

(** The integer 0 written over the first name at a later turn. *)
Definition add_zero : bool * ScratchpadManager :=
  add_field 2 add_raj.2 "customer" "first_name" (Some (Obj "0" false)) "user"
    2 100 "user" "user_edit".

(** An entry that carries no turn, as [FieldEntry(value=...)] builds it. *)
Definition legacy_entry : FieldEntry :=
  mkFieldEntry (Some (Str "Raj")) None None None None None None None None.

Definition legacy : ScratchpadManager :=
  mkManager
    (mkForm {[ "first_name" := legacy_entry ]} ∅ ∅
       (mkMetadata (Some "conv-1") (Some 0) 62 (Some false) (Some 1) None))
    "conv-1" 0.

Definition overwrite_legacy : bool * ScratchpadManager :=
  add_field 2 legacy "customer" "first_name" (Some (Str "Amit")) "user" 2 100 "user"
    "user_edit".

(** Identifiers of service requests in the scenarios: a prefix and the
    decimal number of the request. *)
Definition gen_id (n : nat) : string :=
  "SR-" ++ NilEmpty.string_of_uint (Nat.to_uint (S n)).

Definition no_edit (sp : ScratchpadManager) (message : string)
  : ScratchpadManager := sp.

(** The seven collected fields of a complete booking. *)
Definition collected : pydict :=
  [ ("first_name", Some (Str "Raj")); ("last_name", Some (Str "Kumar"));
    ("phone", Some (Str "9876543210")); ("vehicle_brand", Some (Str "Honda"));
    ("vehicle_model", Some (Str "City")); ("vehicle_plate", Some (Str "MH12AB1234"));
    ("appointment_date", Some (Str "2025-01-15")) ].

(** Two turns of a conversation that has collected everything: one that
    stays in VEHICLE_DETAILS and one that moves on to DATE_SELECTION.  After
    the retroactive merge the extraction holds all the stored fields. *)
Definition ctx_vehicle : ConversationContext :=
  mkContext VEHICLE_DETAILS collected new_context_meta.

Definition turn_stay_vehicle : TurnInputs :=
  mkTurnInputs "it is a Honda City" (Some collected) None VEHICLE_DETAILS
    false 1.

Definition turn_to_date : TurnInputs :=
  mkTurnInputs "any day next week" (Some collected) None DATE_SELECTION
    false 2.

Definition after_vehicle_turn : TurnResult :=
  process_message gen_id Config.CONFIRMATION_MODE empty_world "conv-1"
    ctx_vehicle fresh turn_stay_vehicle.

Definition after_date_turn : TurnResult :=
  process_message gen_id Config.CONFIRMATION_MODE
    (res_world after_vehicle_turn) "conv-1"
    (res_context after_vehicle_turn) (res_scratchpad after_vehicle_turn)
    turn_to_date.

(** A conversation in CONFIRMATION with everything collected. *)
Definition ctx_confirmation : ConversationContext :=
  mkContext CONFIRMATION collected new_context_meta.



(** The confirming turn of a conversation without a booking: after the
    retroactive merge the extraction holds the stored fields. *)
Definition turn_first_yes (dump_fails : bool) : TurnInputs :=
  mkTurnInputs "yes" (Some collected) (Some "true") COMPLETED dump_fails 3.

(** A confirmed turn whose dump succeeds, and one whose dump fails. *)
Definition confirm_ok : TurnResult :=
  process_message gen_id Config.CONFIRMATION_MODE empty_world "conv-1"
    ctx_confirmation fresh (turn_first_yes false).

Definition confirm_dump_fails : TurnResult :=
  process_message gen_id Config.CONFIRMATION_MODE empty_world "conv-1"
    ctx_confirmation fresh (turn_first_yes true).



(** The scratchpad after step 8.4 has stored the collected fields, and
    later calls that carry another first name. *)
Definition populated : ScratchpadManager :=
  populate_scratchpad 1 fresh collected.

Definition raj_entry : FieldEntry :=
  mkFieldEntry (Some (Str "Raj")) (Some "collection") (Some 0) (Some 100)
    (Some "collected") (Some 1) (Some "initial_entry") None (Some 1).

(** A later call of the booking flow manager that carries another first
    name. *)
Definition booking_flow_amit : SiteCall :=
  CallAddExtractedData 4 [("first_name", Some (Str "Amit"))].

Definition later_calls : list SiteCall :=
  [ CallPopulate 2 [("first_name", Some (Str "Amit"))];
    CallUpdateFromExtraction 3 NAME_COLLECTION "first_name" (Some (Str "Amit")) ].

(** The button path on the same conversation, with a dump that fails. *)
Definition button_dump_fails
  : ConfirmationResponse * ConversationContext * ScratchpadManager * World :=
  handle_confirmation gen_id no_edit empty_world (Some "conv-1")
    ctx_confirmation populated (Some "confirm") (Some "confirm") 3 true false.





(** Three turns with an ambiguous reply. *)
Definition ambiguous (w : World) (ctx : ConversationContext)
  : option string * ConversationContext * World :=
  confirmation_flow gen_id Config.CONFIRMATION_MODE w "conv-1" ctx populated
    CONFIRMATION true "hmm" (Some "false").

Definition ambiguous_1 := ambiguous empty_world ctx_confirmation.
Definition ambiguous_2 := ambiguous ambiguous_1.2 ambiguous_1.1.2.
Definition ambiguous_3 := ambiguous ambiguous_2.2 ambiguous_2.1.2.

(** A cancel request on the third turn. *)
Definition cancel_on_third
  : option string * ConversationContext * World :=
  confirmation_flow gen_id Config.CONFIRMATION_MODE ambiguous_2.2 "conv-1"
    ambiguous_2.1.2 populated CONFIRMATION true "cancel" (Some "false").








(** A name scan: some vehicle brands, the filter that keeps the entries of
    the user, and an extractor that reads a name off three messages. *)
Definition brands : list string := ["Toyota"; "Honda"; "Mahindra"; "Tata"].

Definition user_only (messages : list Message) : list Message :=
  filter (fun msg => role msg = Some "user") messages.

Definition extractor (history : list Message) (message : string)
  : NameExtraction :=
  if String.eqb message "my name is Amit Shah" then
    Extracted (Some (Str "Amit")) (Some (Some (Str "Shah")))
  else if String.eqb message "Haan" then
    Extracted (Some (Str "Haan")) (Some (Some (Str EmptyString)))
  else if String.eqb message "Honda City" then
    Extracted (Some (Str "Honda")) (Some (Some (Str "City")))
  else if String.eqb message "I am Raj Haan" then
    Extracted (Some (Str "Raj")) (Some (Some (Str "Haan")))
  else ExtractionRaises.

Definition accepts_all (first last full : string) : bool := true.

Definition user_says (text : string) : Message :=
  mkMessage (Some "user") (Some text).

Definition bot_says (text : string) : Message :=
  mkMessage (Some "assistant") (Some text).

Definition history_amit : option (list Message) :=
  Some [ user_says "my name is Amit Shah"; bot_says "Thanks Amit";
         user_says "Haan"; user_says "Honda City" ].

Definition history_raj_haan : option (list Message) :=
  Some [ bot_says "May I have your name?"; user_says "I am Raj Haan" ].

Definition scan (history : option (list Message)) : option ValidatedName :=
  scan_for_name brands user_only extractor accepts_all history.

End Scenario.


(** * Properties *)

(** ** Strings and values *)

Lemma mem_true_iff (s : string) (l : list string) :
  PyStr.mem s l = true <-> In s l.
Proof.
  unfold PyStr.mem. rewrite existsb_exists. split.
  - intros [x [Hin Heq]]. apply String.eqb_eq in Heq. by subst.
  - intros Hin. exists s. split; [done | apply String.eqb_refl].
Qed.

Lemma valid_section_cases (section : string) :
  valid_section section = true ->
  section = "customer" \/ section = "vehicle" \/ section = "appointment".
Proof.
  unfold valid_section. rewrite mem_true_iff. simpl. intuition.
Qed.

(** A truthy value that [add_field] lets through counts as filled. *)
Lemma valid_value_counts (v : pyval) :
  invalid_value v = false -> truthy v = true -> counts_as_filled v = true.
Proof.
  destruct v as [o|]; [|done]. unfold invalid_value, counts_as_filled.
  intros Hp Ht. by rewrite Hp, Ht.
Qed.

(** A string that [add_field] lets through is not empty, and so it counts
    as filled. *)
Lemma valid_string_truthy (s : string) :
  invalid_value (Some (Str s)) = false -> truthy (Some (Str s)) = true.
Proof. destruct s; [|done]. by vm_compute. Qed.

(** ** Sections of the form *)

#[local] Arguments _update_completeness : simpl never.
#[local] Arguments getattr_section : simpl never.
#[local] Arguments setattr_section : simpl never.
#[local] Arguments clear_all : simpl never.

Lemma getattr_setattr_same f section d :
  getattr_section (setattr_section f section d) section = d.
Proof.
  unfold getattr_section, setattr_section.
  destruct (String.eqb section "customer"); [done|].
  by destruct (String.eqb section "vehicle").
Qed.

Lemma getattr_setattr_other f s1 s2 d :
  valid_section s1 = true -> valid_section s2 = true -> s1 <> s2 ->
  getattr_section (setattr_section f s1 d) s2 = getattr_section f s2.
Proof.
  intros H1 H2 Hne.
  apply valid_section_cases in H1 as [-> | [-> | ->]];
    apply valid_section_cases in H2 as [-> | [-> | ->]];
    done.
Qed.

Lemma metadata_setattr f section d :
  metadata (setattr_section f section d) = metadata f.
Proof.
  unfold setattr_section.
  destruct (String.eqb section "customer"); [done|].
  by destruct (String.eqb section "vehicle").
Qed.

Lemma getattr_update_completeness sp section :
  getattr_section (form (_update_completeness sp)) section
  = getattr_section (form sp) section.
Proof.
  unfold getattr_section, _update_completeness. cbn.
  by repeat case_match.
Qed.

Lemma get_field_valid sp section f :
  valid_section section = true ->
  get_field sp section f = getattr_section (form sp) section !! f.
Proof. unfold get_field. by intros ->. Qed.

Lemma get_field_Some_valid sp section f e :
  get_field sp section f = Some e -> valid_section section = true.
Proof. unfold get_field. by destruct (valid_section section). Qed.

Lemma setattr_getattr_id f section :
  setattr_section f section (getattr_section f section) = f.
Proof.
  unfold setattr_section, getattr_section. destruct f.
  destruct (String.eqb section "customer"); [done|].
  by destruct (String.eqb section "vehicle").
Qed.

(** ** [add_field]: what is stored and what is left alone *)

(** The three outcomes of the turn comparison in [add_field]. *)
Lemma add_field_rejected_turn_with now sp section f e t v src nt conf om es :
  get_field sp section f = Some e -> turn e = Some t -> nt <= t ->
  add_field_with now sp section f v src nt conf om es = (false, sp).
Proof.
  unfold get_field, add_field, add_field_with. intros Hget Ht Hle.
  destruct (valid_section section); [cbn in *|done].
  destruct (invalid_value v); [done|].
  rewrite Hget, Ht. cbn.
  by rewrite (proj2 (Z.leb_le nt t) Hle).
Qed.

Lemma add_field_rejected_turn now sp section f e t v src nt conf m es :
  get_field sp section f = Some e -> turn e = Some t -> nt <= t ->
  add_field now sp section f v src nt conf m es = (false, sp).
Proof. apply add_field_rejected_turn_with. Qed.

Lemma add_field_accepted_spec_with now sp section f v src nt conf om es sp' :
  add_field_with now sp section f v src nt conf om es = (true, sp') ->
  valid_section section = true /\ invalid_value v = false /\
  exists prev,
    (match get_field sp section f with
     | Some e => match turn e with
                 | Some t => t < nt /\ prev = value e
                 | None => prev = None
                 end
     | None => prev = None
     end) /\
    sp' = _update_completeness
            (with_form sp
               (setattr_section (form sp) section
                  (<[f := mkFieldEntry v (Some src) (Some nt) (Some conf)
                            om (Some now) (Some es) prev (Some now)]>
                     (getattr_section (form sp) section)))).
Proof.
  unfold add_field_with, get_field.
  destruct (valid_section section); [cbn|done].
  destruct (invalid_value v); [done|].
  destruct (getattr_section (form sp) section !! f) as [e|] eqn:He; cbn.
  - destruct (turn e) as [t|] eqn:Ht.
    + destruct (nt <=? t) eqn:Hle; [done|].
      intros [= <-]. do 2 (split; [done|]). exists (value e).
      apply Z.leb_gt in Hle. by repeat split.
    + intros [= <-]. do 2 (split; [done|]). by exists None.
  - intros [= <-]. do 2 (split; [done|]). by exists None.
Qed.

Lemma add_field_accepted_spec now sp section f v src nt conf m es sp' :
  add_field now sp section f v src nt conf m es = (true, sp') ->
  valid_section section = true /\ invalid_value v = false /\
  exists prev,
    (match get_field sp section f with
     | Some e => match turn e with
                 | Some t => t < nt /\ prev = value e
                 | None => prev = None
                 end
     | None => prev = None
     end) /\
    sp' = _update_completeness
            (with_form sp
               (setattr_section (form sp) section
                  (<[f := mkFieldEntry v (Some src) (Some nt) (Some conf)
                            (Some m) (Some now) (Some es) prev (Some now)]>
                     (getattr_section (form sp) section)))).
Proof. apply add_field_accepted_spec_with. Qed.

Lemma get_field_add_field_same_with now sp section f v src nt conf om es sp' :
  add_field_with now sp section f v src nt conf om es = (true, sp') ->
  exists e', get_field sp' section f = Some e' /\ value e' = v /\
             turn e' = Some nt /\ edited_at e' = Some now.
Proof.
  intros H. apply add_field_accepted_spec_with in H as (Hs & _ & prev & _ & ->).
  eexists. rewrite get_field_valid by done.
  rewrite getattr_update_completeness. cbn.
  rewrite getattr_setattr_same, lookup_insert_eq. eauto.
Qed.

Lemma get_field_add_field_same now sp section f v src nt conf m es sp' :
  add_field now sp section f v src nt conf m es = (true, sp') ->
  exists e', get_field sp' section f = Some e' /\ value e' = v /\
             turn e' = Some nt /\ edited_at e' = Some now.
Proof. apply get_field_add_field_same_with. Qed.

(** A write leaves every other field as it was. *)
Lemma get_field_add_field_other_with now sp section f v src nt conf om es s2 f2 :
  (s2, f2) <> (section, f) ->
  get_field (add_field_with now sp section f v src nt conf om es).2 s2 f2
  = get_field sp s2 f2.
Proof.
  intros Hne.
  destruct (add_field_with now sp section f v src nt conf om es) as [[|] sp'] eqn:H.
  - apply add_field_accepted_spec_with in H as (Hs & _ & prev & _ & ->). cbn.
    unfold get_field. destruct (valid_section s2) eqn:Hs2; [|done].
    change (negb true) with false. cbv iota.
    rewrite getattr_update_completeness. cbn.
    destruct (decide (s2 = section)) as [->|Hsec].
    + rewrite getattr_setattr_same, lookup_insert_ne; [done|congruence].
    + by rewrite getattr_setattr_other.
  - unfold add_field_with in H. cbn.
    repeat case_match; by inversion H.
Qed.

Lemma get_field_add_field_other now sp section f v src nt conf m es s2 f2 :
  (s2, f2) <> (section, f) ->
  get_field (add_field now sp section f v src nt conf m es).2 s2 f2
  = get_field sp s2 f2.
Proof. apply get_field_add_field_other_with. Qed.

Lemma add_field_accepts now sp section f v src nt conf m es :
  valid_section section = true -> invalid_value v = false ->
  stored_turn_below sp section f nt = true ->
  exists sp', add_field now sp section f v src nt conf m es = (true, sp').
Proof.
  unfold stored_turn_below, add_field, add_field_with. intros Hs Hv.
  rewrite get_field_valid by done. rewrite Hs, Hv. cbn.
  destruct (getattr_section (form sp) section !! f) as [e|]; [|eauto].
  destruct (turn e) as [t|]; [|eauto].
  intros Hlt. apply Z.ltb_lt in Hlt.
  rewrite (proj2 (Z.leb_gt nt t) Hlt). eauto.
Qed.

Lemma add_field_fst_true_iff now sp section f e t v src nt conf m es :
  get_field sp section f = Some e -> turn e = Some t ->
  invalid_value v = false ->
  (add_field now sp section f v src nt conf m es).1 = true <-> t < nt.
Proof.
  intros Hget Ht Hv.
  pose proof (get_field_Some_valid _ _ _ _ Hget) as Hs.
  split.
  - destruct (Z.lt_ge_cases t nt) as [|Hge]; [done|].
    by rewrite (add_field_rejected_turn now sp section f e t v src nt conf m es).
  - intros Hlt.
    destruct (add_field_accepts now sp section f v src nt conf m es)
      as [sp' ->]; try done.
    unfold stored_turn_below. rewrite Hget, Ht. by apply Z.ltb_lt.
Qed.

(** A write of [None] or of a placeholder is rejected at any turn. *)
Lemma add_field_invalid now sp section f v src nt conf m es :
  invalid_value v = true ->
  add_field now sp section f v src nt conf m es = (false, sp).
Proof.
  intros Hv. unfold add_field, add_field_with. rewrite Hv.
  by destruct (valid_section section).
Qed.

Lemma add_field_invalid_section now sp section f v src nt conf m es :
  valid_section section = false ->
  add_field now sp section f v src nt conf m es = (false, sp).
Proof. intros Hs. unfold add_field, add_field_with. by rewrite Hs. Qed.

(** Two writes at turns [t1 < t2] on a scratchpad where a write at [t2] is
    not outdated: the value of the later turn is stored, whichever call is
    made first. *)
Lemma add_field_two_orders_later_wins
    now1 now2 sp section f v1 v2 t1 t2 src1 src2 c1 c2 m1 m2 es1 es2 :
  valid_section section = true ->
  invalid_value v2 = false ->
  t1 < t2 -> stored_turn_below sp section f t2 = true ->
  value <$> get_field
              (add_field now2
                 (add_field now1 sp section f v1 src1 t1 c1 m1 es1).2
                 section f v2 src2 t2 c2 m2 es2).2 section f = Some v2
  /\ value <$> get_field
                 (add_field now1
                    (add_field now2 sp section f v2 src2 t2 c2 m2 es2).2
                    section f v1 src1 t1 c1 m1 es1).2 section f = Some v2.
Proof.
  intros Hs Hv2 Hlt Hbelow. split.
  - (* the earlier write first *)
    assert (stored_turn_below
              (add_field now1 sp section f v1 src1 t1 c1 m1 es1).2
              section f t2 = true) as Hbelow'.
    { destruct (add_field now1 sp section f v1 src1 t1 c1 m1 es1)
        as [[|] sp1] eqn:H1; cbn.
      - apply get_field_add_field_same in H1 as (e' & Hg & _ & Ht & _).
        unfold stored_turn_below. rewrite Hg, Ht. by apply Z.ltb_lt.
      - unfold add_field, add_field_with in H1.
        repeat case_match; by inversion H1; subst. }
    destruct (add_field_accepts now2 _ section f v2 src2 t2 c2 m2 es2
                Hs Hv2 Hbelow') as [sp2 H2].
    rewrite H2. cbn.
    apply get_field_add_field_same in H2 as (e' & -> & <- & _). done.
  - (* the later write first *)
    destruct (add_field_accepts now2 sp section f v2 src2 t2 c2 m2 es2
                Hs Hv2 Hbelow) as [sp2 H2].
    rewrite H2. cbn.
    apply get_field_add_field_same in H2 as (e' & Hg & <- & Ht & _).
    rewrite (add_field_rejected_turn now1 sp2 section f e' t2); try done;
      [|lia].
    cbn. by rewrite Hg.
Qed.

(** The other case: the stored turn is [t2] or later, and both writes are
    rejected. *)
Lemma add_field_two_orders_outdated
    now1 now2 sp section f e t v1 v2 t1 t2 src1 src2 c1 c2 m1 m2 es1 es2 :
  get_field sp section f = Some e -> turn e = Some t ->
  t1 < t2 -> t2 <= t ->
  (add_field now2
     (add_field now1 sp section f v1 src1 t1 c1 m1 es1).2
     section f v2 src2 t2 c2 m2 es2).2 = sp
  /\ (add_field now1
        (add_field now2 sp section f v2 src2 t2 c2 m2 es2).2
        section f v1 src1 t1 c1 m1 es1).2 = sp.
Proof.
  intros Hget Ht Hlt Hle.
  rewrite (add_field_rejected_turn now1 sp section f e t v1) by (done || lia).
  rewrite (add_field_rejected_turn now2 sp section f e t v2) by (done || lia).
  cbn.
  rewrite (add_field_rejected_turn now2 sp section f e t v2) by (done || lia).
  by rewrite (add_field_rejected_turn now1 sp section f e t v1)
    by (done || lia).
Qed.

Lemma stored_turn_below_false sp section f t2 :
  stored_turn_below sp section f t2 = false ->
  exists e t, get_field sp section f = Some e /\ turn e = Some t /\ t2 <= t.
Proof.
  unfold stored_turn_below.
  destruct (get_field sp section f) as [e|]; [|done].
  destruct (turn e) as [t|] eqn:Ht; [|done].
  intros H. apply Z.ltb_ge in H. by exists e, t.
Qed.

(** C3, as the code has it.  Turn ordering of [add_field].  For a field whose
    stored entry has a recorded turn, a write of a value that is neither
    [None] nor a placeholder is accepted exactly when its turn is strictly
    greater than the stored one; a write at an equal or earlier turn returns
    [False] and leaves the whole scratchpad unchanged, and so does a write of
    [None] or of a placeholder at any turn.  For two writes to one field at
    turns [t1 < t2] the stored value after both calls does not depend on
    which call is made first.  With a valid section and a [t2] value that
    is neither [None] nor a placeholder it is the value of the [t2] write
    when the field has no entry, an entry without a turn, or an entry with a
    turn below [t2]; when the stored turn is [t2] or later, both writes are
    rejected in either order and the scratchpad is as before. *)
Theorem add_field_turn_order :
  (forall now sp section f e t v src nt conf m es,
     get_field sp section f = Some e -> turn e = Some t ->
     invalid_value v = false ->
     ((add_field now sp section f v src nt conf m es).1 = true <-> t < nt))
  /\
  (forall now sp section f e t v src nt conf m es,
     get_field sp section f = Some e -> turn e = Some t -> nt <= t ->
     add_field now sp section f v src nt conf m es = (false, sp))
  /\
  (forall now sp section f v src nt conf m es,
     invalid_value v = true ->
     add_field now sp section f v src nt conf m es = (false, sp))
  /\
  (forall now1 now2 sp section f v1 v2 t1 t2 src1 src2 c1 c2 m1 m2 es1 es2,
     t1 < t2 ->
     let first_then_second :=
       (add_field now2
          (add_field now1 sp section f v1 src1 t1 c1 m1 es1).2
          section f v2 src2 t2 c2 m2 es2).2 in
     let second_then_first :=
       (add_field now1
          (add_field now2 sp section f v2 src2 t2 c2 m2 es2).2
          section f v1 src1 t1 c1 m1 es1).2 in
     value <$> get_field first_then_second section f
     = value <$> get_field second_then_first section f
     /\
     (valid_section section = true ->
      invalid_value v2 = false ->
      stored_turn_below sp section f t2 = true ->
      value <$> get_field first_then_second section f = Some v2 /\
      value <$> get_field second_then_first section f = Some v2)
     /\
     (forall e t,
        get_field sp section f = Some e -> turn e = Some t -> t2 <= t ->
        first_then_second = sp /\ second_then_first = sp)).
Proof.
  split; [|split; [|split]].
  - intros. by eapply add_field_fst_true_iff.
  - intros. by eapply add_field_rejected_turn.
  - intros. by apply add_field_invalid.
  - intros now1 now2 sp section f v1 v2 t1 t2 src1 src2 c1 c2 m1 m2 es1 es2
      Hlt. cbn zeta. split; [|split].
    + destruct (valid_section section) eqn:Hs.
      2:{ by rewrite !add_field_invalid_section. }
      destruct (invalid_value v2) eqn:Hv2.
      { rewrite (add_field_invalid now2 sp) by done.
        by rewrite (add_field_invalid now2) by done. }
      destruct (stored_turn_below sp section f t2) eqn:Hbelow.
      * destruct (add_field_two_orders_later_wins now1 now2 sp section f
                    v1 v2 t1 t2 src1 src2 c1 c2 m1 m2 es1 es2
                    Hs Hv2 Hlt Hbelow) as [-> ->]. done.
      * apply stored_turn_below_false in Hbelow as (e & t & Hget & Ht & Hle).
        destruct (add_field_two_orders_outdated now1 now2 sp section f e t
                    v1 v2 t1 t2 src1 src2 c1 c2 m1 m2 es1 es2
                    Hget Ht Hlt Hle) as [-> ->]. done.
    + intros Hs Hv2 Hbelow. by apply add_field_two_orders_later_wins.
    + intros e t Hget Ht Hle. by eapply add_field_two_orders_outdated.
Qed.

(** The entry that an accepted write stores. *)
Lemma get_field_add_field_entry now sp section f v src nt conf m es sp' :
  add_field now sp section f v src nt conf m es = (true, sp') ->
  exists prev,
    (match get_field sp section f with
     | Some e => match turn e with
                 | Some t => t < nt /\ prev = value e
                 | None => prev = None
                 end
     | None => prev = None
     end) /\
    get_field sp' section f
    = Some (mkFieldEntry v (Some src) (Some nt) (Some conf) (Some m)
              (Some now) (Some es) prev (Some now)).
Proof.
  intros H. apply add_field_accepted_spec in H as (Hs & _ & prev & Hprev & ->).
  exists prev. split; [done|].
  rewrite get_field_valid by done.
  rewrite getattr_update_completeness. cbn.
  by rewrite getattr_setattr_same, lookup_insert_eq.
Qed.

(** C3, at the scenario of the specification: the name written at turn 1 and
    the correction written at turn 2, in both orders. *)
Lemma add_field_turn_order_witness :
  ((add_field 2 Scenario.add_raj.2 "customer" "first_name" (Some (Str "Amit"))
      "user" 2 100 "user" "user_edit").1 = true <-> 1 < 2)
  /\
  (value <$>
     get_field
       (add_field 2
          (add_field 1 Scenario.fresh "customer" "first_name"
             (Some (Str "Raj")) "user" 1 100 "user" "initial_entry").2
          "customer" "first_name" (Some (Str "Amit")) "user" 2 100 "user"
          "user_edit").2
       "customer" "first_name" = Some (Some (Str "Amit"))
   /\
   value <$>
     get_field
       (add_field 1
          (add_field 2 Scenario.fresh "customer" "first_name"
             (Some (Str "Amit")) "user" 2 100 "user" "user_edit").2
          "customer" "first_name" (Some (Str "Raj")) "user" 1 100 "user"
          "initial_entry").2
       "customer" "first_name" = Some (Some (Str "Amit"))).
Proof.
  split.
  - apply (proj1 add_field_turn_order 2 Scenario.add_raj.2 "customer"
             "first_name"
             (mkFieldEntry (Some (Str "Raj")) (Some "user") (Some 1)
                (Some 100) (Some "user") (Some 1) (Some "initial_entry") None
                (Some 1))
             1 (Some (Str "Amit"))); vm_compute; reflexivity.
  - apply (proj1 (proj2 (proj2 (proj2 (proj2 add_field_turn_order)) 1 2
                          Scenario.fresh "customer" "first_name"
                          (Some (Str "Raj")) (Some (Str "Amit")) 1 2
                          "user" "user" 100 100 "user" "user"
                          "initial_entry" "user_edit" ltac:(lia))));
      vm_compute; reflexivity.
Defined.

(** C3 as stated fails when the stored turn is not below the later of the
    two turns: on a scratchpad that holds the name written at turn 5, the
    writes at turns 1 and 2 are both rejected in either order, and the stored
    value is not the one of the write at turn 2.  A write at the later turn 9
    is rejected as well when its value is a placeholder. *)
Lemma turn_order_outdated_writes :
  let first_then_second :=
    (add_field 7 (add_field 6 Scenario.raj_at_5.2 "customer" "first_name"
                    (Some (Str "Amit")) "user" 1 100 "user" "user_edit").2
       "customer" "first_name" (Some (Str "Anil")) "user" 2 100 "user"
       "user_edit").2 in
  let second_then_first :=
    (add_field 7 (add_field 6 Scenario.raj_at_5.2 "customer" "first_name"
                    (Some (Str "Anil")) "user" 2 100 "user" "user_edit").2
       "customer" "first_name" (Some (Str "Amit")) "user" 1 100 "user"
       "user_edit").2 in
  Scenario.raj_at_5.1 = true
  /\ value <$> get_field first_then_second "customer" "first_name"
     = Some (Some (Str "Raj"))
  /\ value <$> get_field second_then_first "customer" "first_name"
     = Some (Some (Str "Raj"))
  /\ value <$> get_field first_then_second "customer" "first_name"
     <> Some (Some (Str "Anil"))
  /\ add_field 8 Scenario.raj_at_5.2 "customer" "first_name"
       (Some (Str "Unknown")) "user" 9 100 "user" "user_edit"
     = (false, Scenario.raj_at_5.2).
Proof. vm_compute. repeat split; congruence. Qed.

(** ** Superseded values *)

(** C6, as the code has it.  When an accepted write supersedes an entry that
    has a recorded turn, the new entry holds the written value, its
    [previous_value] is the value of the superseded entry and [edited_at] is
    stamped.  When the superseded entry has no recorded turn the write of a
    non-placeholder value is accepted as well and [edited_at] is stamped, but
    [previous_value] is [None]. *)
Theorem add_field_previous_value :
  (forall now sp section f e t v src nt conf m es sp',
     get_field sp section f = Some e -> turn e = Some t ->
     add_field now sp section f v src nt conf m es = (true, sp') ->
     exists e',
       get_field sp' section f = Some e' /\ value e' = v /\
       previous_value e' = value e /\ edited_at e' = Some now)
  /\
  (forall now sp section f e v src nt conf m es,
     get_field sp section f = Some e -> turn e = None ->
     invalid_value v = false ->
     exists sp' e',
       add_field now sp section f v src nt conf m es = (true, sp') /\
       get_field sp' section f = Some e' /\ value e' = v /\
       previous_value e' = None /\ edited_at e' = Some now).
Proof.
  split.
  - intros now sp section f e t v src nt conf m es sp' Hget Ht Hadd.
    apply get_field_add_field_entry in Hadd as (prev & Hprev & Hnew).
    rewrite Hget, Ht in Hprev. destruct Hprev as [_ ->].
    eexists. split; [exact Hnew|]. done.
  - intros now sp section f e v src nt conf m es Hget Ht Hv.
    pose proof (get_field_Some_valid _ _ _ _ Hget) as Hs.
    destruct (add_field_accepts now sp section f v src nt conf m es)
      as [sp' Hadd]; try done.
    { unfold stored_turn_below. by rewrite Hget, Ht. }
    exists sp'.
    pose proof Hadd as Hadd'.
    apply get_field_add_field_entry in Hadd' as (prev & Hprev & Hnew).
    rewrite Hget, Ht in Hprev. subst prev.
    eexists. split; [exact Hadd|]. split; [exact Hnew|]. done.
Qed.

(** C6, at the scenario of the specification: the name stored at turn 1 is
    superseded by the write at turn 2 and kept as [previous_value]. *)
Lemma add_field_previous_value_witness :
  exists e',
    get_field Scenario.add_amit.2 "customer" "first_name" = Some e' /\
    value e' = Some (Str "Amit") /\ previous_value e' = Some (Str "Raj") /\
    edited_at e' = Some 2.
Proof.
  apply (proj1 add_field_previous_value 2 Scenario.add_raj.2 "customer"
           "first_name"
           (mkFieldEntry (Some (Str "Raj")) (Some "user") (Some 1) (Some 100)
              (Some "user") (Some 1) (Some "initial_entry") None (Some 1))
           1 (Some (Str "Amit")) "user" 2 100 "user" "user_edit");
    vm_compute; reflexivity.
Defined.

(** C6 as stated fails for an entry without a recorded turn: the value it
    held is not kept when it is superseded. *)
Lemma previous_value_lost_without_turn :
  value <$> get_field Scenario.legacy "customer" "first_name" = Some (Some (Str "Raj"))
  /\ turn <$> get_field Scenario.legacy "customer" "first_name" = Some None
  /\ Scenario.overwrite_legacy.1 = true
  /\ value <$> get_field Scenario.overwrite_legacy.2 "customer" "first_name"
     = Some (Some (Str "Amit"))
  /\ previous_value <$>
       get_field Scenario.overwrite_legacy.2 "customer" "first_name"
     <> Some (Some (Str "Raj")).
Proof. vm_compute. repeat split; congruence. Qed.

(** ** Placeholders and stopwords *)

(** C4 as stated fails: the write of the greeting word is accepted and the
    completeness leaves 0. *)
Lemma add_field_accepts_stopword :
  Scenario.add_haan.1 = true
  /\ value <$> get_field Scenario.add_haan.2 "customer" "first_name"
     = Some (Some (Str "Haan"))
  /\ get_completeness Scenario.fresh = 0
  /\ get_completeness Scenario.add_haan.2 <> 0.
Proof. vm_compute. repeat split; congruence. Qed.

(** C4, as the code has it.  [add_field] knows no stopword list: on a fresh
    scratchpad a write is rejected exactly when the section is unknown or the
    value is [None] or a placeholder.  The greeting word of the scenario is a
    stopword of the configuration and no placeholder, so the write is accepted
    and stored, and the completeness becomes 6.2%. *)
Theorem add_field_fresh_haan :
  (forall now cid t0 section f v src nt conf m es,
     (add_field now (new_scratchpad cid t0) section f v src nt conf m es).1
     = valid_section section && negb (invalid_value v))
  /\
  PyStr.mem (PyStr.lower "Haan") Config.GREETING_STOPWORDS = true
  /\
  (forall now cid t0 src conf m es,
     let r :=
       add_field now (new_scratchpad cid t0) "customer" "first_name"
         (Some (Str "Haan")) src 1 conf m es in
     r.1 = true /\
     value <$> get_field r.2 "customer" "first_name" = Some (Some (Str "Haan")) /\
     get_completeness r.2 = 62).
Proof.
  split; [|split].
  - intros. unfold add_field, add_field_with.
    destruct (valid_section section) eqn:Hs; [cbn|done].
    destruct (invalid_value v); [done|]. cbn.
    apply valid_section_cases in Hs as [-> | [-> | ->]]; done.
  - reflexivity.
  - intros. vm_compute. done.
Qed.

(** ** Completeness *)

Lemma round1_pct_bounds (n : Z) :
  1000 * n - 8 <= 16 * round1_pct n 16 <= 1000 * n + 8.
Proof.
  unfold round1_pct.
  pose proof (Z.div_mod (n * 1000) 16 ltac:(lia)) as Hdm.
  pose proof (Z.mod_pos_bound (n * 1000) 16 ltac:(lia)) as Hr.
  destruct (Z.ltb_spec (2 * ((n * 1000) mod 16)) 16); [lia|].
  destruct (Z.ltb_spec 16 (2 * ((n * 1000) mod 16))); [lia|].
  destruct (Z.even ((n * 1000) / 16)); lia.
Qed.

Lemma completeness_of_min (n : Z) :
  completeness_of n = Z.min 1000 (round1_pct n Config.TOTAL_POSSIBLE_FIELDS).
Proof.
  unfold completeness_of.
  destruct (Z.ltb_spec 1000 (round1_pct n Config.TOTAL_POSSIBLE_FIELDS)); lia.
Qed.

Lemma completeness_of_range (n : Z) :
  0 <= n -> 0 <= completeness_of n <= 1000.
Proof.
  intros Hn. rewrite completeness_of_min.
  pose proof (round1_pct_bounds n) as Hb.
  change Config.TOTAL_POSSIBLE_FIELDS with 16. lia.
Qed.

Lemma completeness_of_mono (a b : Z) :
  a <= b -> completeness_of a <= completeness_of b.
Proof.
  intros Hab. rewrite !completeness_of_min.
  change Config.TOTAL_POSSIBLE_FIELDS with 16.
  pose proof (round1_pct_bounds a). pose proof (round1_pct_bounds b).
  destruct (decide (a = b)) as [->|]; lia.
Qed.

Lemma filled_in_nonneg (d : gmap string FieldEntry) : 0 <= filled_in d.
Proof. unfold filled_in. lia. Qed.

Lemma filled_in_empty : filled_in ∅ = 0.
Proof. unfold filled_in. by rewrite map_filter_empty, map_size_empty. Qed.

(** Storing an entry that counts as filled never lowers the count. *)
Lemma filled_in_insert_counted (d : gmap string FieldEntry) k e :
  counts_as_filled (value e) = true ->
  filled_in d <= filled_in (<[k := e]> d).
Proof.
  intros Hc. unfold filled_in.
  rewrite map_filter_insert_True by done.
  rewrite map_size_insert. destruct (_ !! k); cbn; lia.
Qed.

Lemma filled_count_nonneg f : 0 <= filled_count f.
Proof.
  unfold filled_count.
  pose proof (filled_in_nonneg (customer f)).
  pose proof (filled_in_nonneg (vehicle f)).
  pose proof (filled_in_nonneg (appointment f)). lia.
Qed.

Lemma filled_count_setattr_counted f section k e :
  valid_section section = true ->
  counts_as_filled (value e) = true ->
  filled_count f
  <= filled_count
       (setattr_section f section (<[k := e]> (getattr_section f section))).
Proof.
  intros Hs Hc.
  apply valid_section_cases in Hs as [-> | [-> | ->]];
    unfold filled_count, setattr_section, getattr_section; cbn;
    match goal with
    | |- context [ <[k := e]> ?d ] =>
        pose proof (filled_in_insert_counted d k e Hc)
    end; lia.
Qed.

(** [_update_completeness] touches the metadata only. *)
Lemma filled_count_update_completeness sp :
  filled_count (form (_update_completeness sp)) = filled_count (form sp).
Proof. done. Qed.

Lemma get_completeness_update_completeness sp :
  get_completeness (_update_completeness sp)
  = completeness_of (filled_count (form sp)).
Proof. done. Qed.

Lemma consistent_update_completeness sp :
  completeness_consistent (_update_completeness sp).
Proof. done. Qed.

Lemma consistent_clear_all sp : completeness_consistent (clear_all sp).
Proof.
  unfold completeness_consistent, clear_all, get_completeness, filled_count.
  cbn. by rewrite filled_in_empty.
Qed.

(** The counted entries of the specification are those that the code
    counts. *)
Lemma counts_as_filled_spec (v : pyval) :
  counts_as_filled v = spec_counted v.
Proof.
  unfold counts_as_filled, placeholder_text, spec_counted, PLACEHOLDERS,
    PyStr.mem.
  destruct v as [[s|repr truth]|]; [| |done]; cbn [py_str truthy existsb].
  - destruct s as [|c s]; [done|].
    change (PyStr.lower (String c s))
      with (String (PyStr.lower_char c) (PyStr.lower s)).
    change (PyStr.nonempty (String c s)) with true.
    change (String.eqb (String c s) EmptyString) with false.
    change (String.eqb (String (PyStr.lower_char c) (PyStr.lower s))
              EmptyString) with false.
    destruct (String.eqb _ "unknown"); [done|].
    by destruct (String.eqb _ "none").
  - destruct truth; [|done].
    destruct (String.eqb (PyStr.lower repr) "unknown"); [done|].
    destruct (String.eqb (PyStr.lower repr) "none"); [done|].
    by destruct (String.eqb (PyStr.lower repr) EmptyString).
Qed.

Lemma filled_in_spec (d : gmap string FieldEntry) :
  filled_in d
  = Z.of_nat (size (filter (fun kv => spec_counted (value kv.2) = true) d)).
Proof.
  unfold filled_in. f_equal. f_equal.
  apply map_filter_ext. intros k e _. by rewrite counts_as_filled_spec.
Qed.

Lemma filled_count_spec f : filled_count f = spec_filled f.
Proof. unfold filled_count, spec_filled. rewrite !filled_in_spec. lia. Qed.

(** The rounding of the code is the rounding to the nearest tenth, ties to
    the even one. *)
Lemma round1_pct_spec (n : Z) : spec_round1 n 16 (round1_pct n 16).
Proof.
  unfold spec_round1, round1_pct.
  pose proof (Z.div_mod (n * 1000) 16 ltac:(lia)) as Hdm.
  pose proof (Z.mod_pos_bound (n * 1000) 16 ltac:(lia)) as Hr.
  destruct (Z.ltb_spec (2 * ((n * 1000) mod 16)) 16); [split; lia|].
  destruct (Z.ltb_spec 16 (2 * ((n * 1000) mod 16))); [split; lia|].
  destruct (Z.even ((n * 1000) / 16)) eqn:He; [split; [lia|done]|].
  split; [lia|]. intros _.
  rewrite Z.even_add, He. done.
Qed.

(** The rounding of the specification determines the result. *)
Lemma spec_round1_unique (n total r1 r2 : Z) :
  0 < total ->
  spec_round1 n total r1 -> spec_round1 n total r2 -> r1 = r2.
Proof.
  intros Ht [H1 E1] [H2 E2].
  destruct (decide (r1 = r2)) as [|Hne]; [done|exfalso].
  assert (r1 = r2 + 1 \/ r2 = r1 + 1) as Hadj by nia.
  assert (2 * Z.abs (total * r1 - 1000 * n) = total
          /\ 2 * Z.abs (total * r2 - 1000 * n) = total) as [T1 T2] by nia.
  specialize (E1 T1). specialize (E2 T2).
  apply Z.even_spec in E1 as [k1 ->]. apply Z.even_spec in E2 as [k2 ->].
  lia.
Qed.

Lemma consistent_spec sp :
  completeness_consistent sp ->
  spec_completeness (form sp) (get_completeness sp).
Proof.
  unfold completeness_consistent, spec_completeness. intros ->.
  exists (round1_pct (filled_count (form sp)) 16).
  rewrite <- filled_count_spec. split; [apply round1_pct_spec|].
  apply completeness_of_min.
Qed.

Lemma spec_completeness_range f c :
  spec_completeness f c -> 0 <= c <= 1000.
Proof.
  intros (r & [Hr _] & ->).
  change Config.TOTAL_POSSIBLE_FIELDS with 16 in Hr.
  assert (0 <= spec_filled f) by (unfold spec_filled; lia).
  lia.
Qed.

(** A call that returns [True] has recomputed the percentage; a call that
    returns [False] has changed nothing. *)
Lemma add_field_result now sp section f v src nt conf m es :
  ((add_field now sp section f v src nt conf m es).1 = true ->
   completeness_consistent (add_field now sp section f v src nt conf m es).2)
  /\ ((add_field now sp section f v src nt conf m es).1 = false ->
      (add_field now sp section f v src nt conf m es).2 = sp).
Proof.
  unfold add_field, add_field_with. repeat case_match; cbn; split; try done;
    intros _; apply consistent_update_completeness.
Qed.

Lemma update_field_result sp section f v :
  ((update_field sp section f v).1 = true ->
   completeness_consistent (update_field sp section f v).2)
  /\ ((update_field sp section f v).1 = false ->
      (update_field sp section f v).2 = sp).
Proof.
  unfold update_field. repeat case_match; cbn; split; try done;
    intros _; apply consistent_update_completeness.
Qed.

Lemma delete_field_result sp section f :
  ((delete_field sp section f).1 = true ->
   completeness_consistent (delete_field sp section f).2)
  /\ ((delete_field sp section f).1 = false ->
      (delete_field sp section f).2 = sp).
Proof.
  unfold delete_field, delete_entry. repeat case_match; cbn; split; try done;
    intros _; apply consistent_update_completeness.
Qed.

(** Every operation either leaves the scratchpad as it is or recomputes the
    percentage. *)
Lemma run_op_unchanged_or_consistent sp op :
  run_op sp op = sp \/ completeness_consistent (run_op sp op).
Proof.
  destruct op as [now section f v src nt conf m es | section f v | section f |];
    cbn.
  - destruct (add_field now sp section f v src nt conf m es).1 eqn:H.
    + right. by apply add_field_result.
    + left. by apply add_field_result.
  - destruct (update_field sp section f v).1 eqn:H.
    + right. by apply update_field_result.
    + left. by apply update_field_result.
  - destruct (delete_field sp section f).1 eqn:H.
    + right. by apply delete_field_result.
    + left. by apply delete_field_result.
  - right. apply consistent_clear_all.
Qed.

Lemma consistent_new_scratchpad cid t0 :
  completeness_consistent (new_scratchpad cid t0).
Proof.
  unfold completeness_consistent, new_scratchpad, get_completeness, filled_count.
  cbn. by rewrite filled_in_empty.
Qed.

Lemma consistent_run_ops sp ops :
  completeness_consistent sp -> completeness_consistent (run_ops sp ops).
Proof.
  revert sp. induction ops as [|op ops IH]; intros sp Hc; [done|].
  cbn. apply IH.
  destruct (run_op_unchanged_or_consistent sp op) as [-> | H]; done.
Qed.

(** A write of a truthy value does not lower the percentage. *)
Lemma add_field_completeness_mono now sp section f v src nt conf m es :
  completeness_consistent sp -> truthy v = true ->
  get_completeness sp
  <= get_completeness (add_field now sp section f v src nt conf m es).2.
Proof.
  intros Hc Ht.
  destruct (add_field now sp section f v src nt conf m es) as [[|] sp'] eqn:H.
  - apply add_field_accepted_spec in H as (Hs & Hv & prev & _ & ->). cbn.
    rewrite get_completeness_update_completeness, Hc. cbn.
    apply completeness_of_mono, filled_count_setattr_counted; [done|].
    cbn. by apply valid_value_counts.
  - pose proof (proj2 (add_field_result now sp section f v src nt conf m es))
      as Hsame.
    rewrite H in Hsame. cbn in *. rewrite Hsame by done. lia.
Qed.

(** C5, as the code has it.  A call of [add_field], [update_field] or
    [delete_field] that returns [True], and every call of [clear_all], leaves
    the percentage equal to [min(100, round(filled / 16 * 100, 1))], where
    [filled] is the number of entries of the three sections whose value is
    truthy and no placeholder, and the rounding is to the nearest tenth, to
    the even one of two that are equally near; a call that returns [False]
    changes nothing.  So in every state that a scratchpad reaches from its
    construction the percentage obeys the formula and lies between 0 and
    100, and no [add_field] call with a truthy value lowers it. *)
Theorem completeness_formula_range_monotone :
  (forall now sp section f v src nt conf m es,
     let r := add_field now sp section f v src nt conf m es in
     (r.1 = true -> spec_completeness (form r.2) (get_completeness r.2))
     /\ (r.1 = false -> r.2 = sp))
  /\
  (forall sp section f v,
     let r := update_field sp section f v in
     (r.1 = true -> spec_completeness (form r.2) (get_completeness r.2))
     /\ (r.1 = false -> r.2 = sp))
  /\
  (forall sp section f,
     let r := delete_field sp section f in
     (r.1 = true -> spec_completeness (form r.2) (get_completeness r.2))
     /\ (r.1 = false -> r.2 = sp))
  /\
  (forall sp,
     spec_completeness (form (clear_all sp)) (get_completeness (clear_all sp)))
  /\
  (forall cid t0 ops,
     let sp := run_ops (new_scratchpad cid t0) ops in
     spec_completeness (form sp) (get_completeness sp)
     /\ 0 <= get_completeness sp <= 1000
     /\ forall now section f v src nt conf m es,
          truthy v = true ->
          get_completeness sp
          <= get_completeness
               (add_field now sp section f v src nt conf m es).2).
Proof.
  split; [|split; [|split; [|split]]].
  - intros. cbn zeta. split; [|by apply add_field_result].
    intros H. by apply consistent_spec, add_field_result.
  - intros. cbn zeta. split; [|by apply update_field_result].
    intros H. by apply consistent_spec, update_field_result.
  - intros. cbn zeta. split; [|by apply delete_field_result].
    intros H. by apply consistent_spec, delete_field_result.
  - intros. apply consistent_spec, consistent_clear_all.
  - intros cid t0 ops sp.
    assert (completeness_consistent sp) as Hc
      by apply consistent_run_ops, consistent_new_scratchpad.
    split; [|split].
    + by apply consistent_spec.
    + by eapply spec_completeness_range, consistent_spec.
    + intros. by apply add_field_completeness_mono.
Qed.

(** C5, at the scenario of the specification: the first name written on a
    new scratchpad gives 6.2%, and the correction written at the next turn
    keeps it. *)
Lemma completeness_formula_range_monotone_witness :
  spec_completeness (form Scenario.add_raj.2) 62
  /\ get_completeness Scenario.add_raj.2
     <= get_completeness Scenario.add_amit.2.
Proof.
  destruct completeness_formula_range_monotone as (Hadd & _ & _ & _ & Hrun).
  split.
  - apply (proj1 (Hadd 1 Scenario.fresh "customer" "first_name"
                    (Some (Str "Raj")) "user" 1 100 "user" "initial_entry")).
    reflexivity.
  - apply (proj2 (proj2 (Hrun "conv-1" 0
                           [OpAddField 1 "customer" "first_name"
                              (Some (Str "Raj")) "user" 1 100 "user"
                              "initial_entry"]))).
    reflexivity.
Defined.

(** C5 as stated fails for a value that is falsy without being a
    placeholder.  The integer 0 is accepted by [add_field] as a correction of
    the first name, the entry is stored, and it is not counted: the
    percentage goes from 6.2 down to 0. *)
Lemma completeness_drops_on_falsy_value :
  invalid_value (Some (Obj "0" false)) = false
  /\ get_completeness Scenario.add_raj.2 = 62
  /\ Scenario.add_zero.1 = true
  /\ value <$> get_field Scenario.add_zero.2 "customer" "first_name"
     = Some (Some (Obj "0" false))
  /\ get_completeness Scenario.add_zero.2 = 0.
Proof. vm_compute. repeat split; reflexivity. Qed.

(** ** Call sites and their turn numbers *)

Lemma add_field_unchanged_or_accepted_with now sp section f v src nt conf om es :
  add_field_with now sp section f v src nt conf om es = (false, sp) \/
  exists sp', add_field_with now sp section f v src nt conf om es = (true, sp').
Proof.
  unfold add_field_with. repeat case_match; eauto.
Qed.

Lemma add_field_unchanged_or_accepted now sp section f v src nt conf m es :
  add_field now sp section f v src nt conf m es = (false, sp) \/
  exists sp', add_field now sp section f v src nt conf m es = (true, sp').
Proof. apply add_field_unchanged_or_accepted_with. Qed.

(** No call of [add_field] writes the key [turns] of the metadata. *)
Lemma turns_add_field_with now sp section f v src nt conf om es :
  turns (metadata (form (add_field_with now sp section f v src nt conf om es).2))
  = turns (metadata (form sp)).
Proof.
  destruct (add_field_unchanged_or_accepted_with now sp section f v src nt
              conf om es) as [-> | [sp' H]]; [done|].
  rewrite H.
  apply add_field_accepted_spec_with in H as (_ & _ & prev & _ & ->).
  cbn. unfold _update_completeness. cbn. by rewrite metadata_setattr.
Qed.

Lemma turns_add_field now sp section f v src nt conf m es :
  turns (metadata (form (add_field now sp section f v src nt conf m es).2))
  = turns (metadata (form sp)).
Proof. apply turns_add_field_with. Qed.

Lemma turns_metadata_delete m key m' :
  metadata_delete m key = Some m' -> turns m = None -> turns m' = None.
Proof.
  unfold metadata_delete. repeat case_match; try done; by intros [= <-].
Qed.

(** The operations of the manager do not write the key either: when it is
    absent it stays absent. *)
Lemma turns_run_op sp op :
  turns (metadata (form sp)) = None ->
  turns (metadata (form (run_op sp op))) = None.
Proof.
  intros Hnone. destruct op as [now section f v src nt conf m es
                               | section f v | section f |]; cbn.
  - by rewrite turns_add_field.
  - unfold update_field. repeat case_match; cbn; [|done].
    unfold _update_completeness. cbn. by rewrite metadata_setattr.
  - unfold delete_field, delete_entry.
    destruct section; repeat case_match; cbn; try done;
      unfold _update_completeness; cbn; rewrite ?metadata_setattr; try done.
    by eapply turns_metadata_delete.
  - done.
Qed.

Lemma turns_fold_add {A} (step : ScratchpadManager -> A -> ScratchpadManager)
    (l : list A) sp :
  (forall acc a,
     turns (metadata (form (step acc a))) = turns (metadata (form acc))) ->
  turns (metadata (form (fold_left step l sp))) = turns (metadata (form sp)).
Proof.
  intros Hstep. revert sp. induction l as [|a l IH]; intros sp; [done|].
  cbn. by rewrite IH, Hstep.
Qed.

Lemma turns_populate_one now sp kv :
  turns (metadata (form (populate_one now sp kv)))
  = turns (metadata (form sp)).
Proof.
  unfold populate_one. repeat case_match; try done. apply turns_add_field.
Qed.

Lemma turns_update_from_extraction now sp st k v :
  turns (metadata (form (update_from_extraction now sp st k v)))
  = turns (metadata (form sp)).
Proof.
  unfold update_from_extraction.
  repeat case_match; try done; apply turns_add_field.
Qed.

(** What one iteration of [add_optional_fields] does to the scratchpad: it
    leaves it as it is, or it is a call of [add_field] at turn 0. *)
Lemma add_optional_one_cases now optional_data sp kv sp' :
  add_optional_one now optional_data sp kv = Some sp' ->
  sp' = sp
  \/ exists section f om,
       sp' = (add_field_with now sp section f kv.2 "extraction" 0 100 om
                "initial_entry").2.
Proof.
  unfold add_optional_one.
  destruct (endswith kv.1 "_method"); [intros [= <-]; by left|].
  destruct (optional_field_mapping kv.1) as [[section f]|];
    [|intros [= <-]; by left].
  cbv zeta.
  match goal with
  | |- context [ if ?c then Some sp else _ ] => destruct c
  end; [intros [= <-]; by left|].
  destruct (default _ _) as [[m|repr truth]|].
  - intros [= <-]. right. by exists section, f, (Some m).
  - destruct (add_field_with _ _ _ _ _ _ _ _ _ _).1; [done|].
    intros [= <-]. by left.
  - intros [= <-]. right. by exists section, f, None.
Qed.

(** A property of the scratchpad that every iteration keeps holds after the
    loop of [add_optional_fields], however the loop ends. *)
Lemma add_optional_loop_ind (P : ScratchpadManager -> Prop) now optional_data :
  (forall sp section f v om,
     P sp ->
     P (add_field_with now sp section f v "extraction" 0 100 om
          "initial_entry").2) ->
  forall items sp,
    P sp -> P (add_optional_loop now optional_data items sp).2.
Proof.
  intros Hstep. induction items as [|kv items IH]; intros sp HP; [done|].
  cbn [add_optional_loop].
  destruct (add_optional_one now optional_data sp kv) as [sp'|] eqn:Hone;
    [|done].
  apply IH.
  apply add_optional_one_cases in Hone as [-> | (section & f & om & ->)];
    [done | by apply Hstep].
Qed.

Lemma turns_run_call sp c :
  turns (metadata (form (run_call sp c))) = turns (metadata (form sp)).
Proof.
  destruct c as [now d | now st k v | now d | now d | now slot]; cbn.
  - apply turns_fold_add. intros. apply turns_populate_one.
  - apply turns_update_from_extraction.
  - unfold add_optional_fields.
    apply (add_optional_loop_ind
             (fun sp' => turns (metadata (form sp'))
                         = turns (metadata (form sp)))); [|done].
    intros acc section f v om Hacc. by rewrite turns_add_field_with.
  - unfold _add_extracted_data. destruct d as [|kv d]; [done|].
    apply turns_fold_add. intros.
    repeat case_match; try done. apply turns_add_field.
  - unfold set_time_slot. repeat case_match; try done; apply turns_add_field.
Qed.

(** A write at a turn that is not above the stored one leaves the stored entry
    in place, whatever field it is aimed at. *)
Lemma add_field_keeps_entry_with now sp s f e t section f2 v src nt conf om es :
  get_field sp s f = Some e -> turn e = Some t -> nt <= t ->
  get_field (add_field_with now sp section f2 v src nt conf om es).2 s f = Some e.
Proof.
  intros Hget Ht Hle.
  destruct (decide ((s, f) = (section, f2))) as [[= <- <-] | Hne].
  - by rewrite (add_field_rejected_turn_with now sp s f e t).
  - by rewrite get_field_add_field_other_with.
Qed.

Lemma add_field_keeps_entry now sp s f e t section f2 v src nt conf m es :
  get_field sp s f = Some e -> turn e = Some t -> nt <= t ->
  get_field (add_field now sp section f2 v src nt conf m es).2 s f = Some e.
Proof. apply add_field_keeps_entry_with. Qed.

(** An entry found after a write was there before or carries the turn of the
    write. *)
Lemma add_field_entry_origin_with now sp section f2 v src nt conf om es s f e :
  get_field (add_field_with now sp section f2 v src nt conf om es).2 s f = Some e ->
  get_field sp s f = Some e \/ turn e = Some nt.
Proof.
  destruct (decide ((s, f) = (section, f2))) as [[= <- <-] | Hne].
  - destruct (add_field_unchanged_or_accepted_with now sp s f v src nt conf om es)
      as [-> | [sp' H]]; [by left|].
    rewrite H. cbn.
    apply get_field_add_field_same_with in H as (e' & -> & _ & Ht & _).
    intros [= <-]. by right.
  - rewrite get_field_add_field_other_with by done. by left.
Qed.

Lemma add_field_entry_origin now sp section f2 v src nt conf m es s f e :
  get_field (add_field now sp section f2 v src nt conf m es).2 s f = Some e ->
  get_field sp s f = Some e \/ turn e = Some nt.
Proof. apply add_field_entry_origin_with. Qed.

Lemma fold_keeps_entry {A} (step : ScratchpadManager -> A -> ScratchpadManager)
    (l : list A) s f e :
  (forall acc a, get_field acc s f = Some e ->
                 get_field (step acc a) s f = Some e) ->
  forall sp, get_field sp s f = Some e ->
             get_field (fold_left step l sp) s f = Some e.
Proof.
  intros Hstep. induction l as [|a l IH]; intros sp Hget; [done|].
  cbn. by apply IH, Hstep.
Qed.

Lemma fold_entry_origin {A} (step : ScratchpadManager -> A -> ScratchpadManager)
    (l : list A) s f e (nt : Z) :
  (forall acc a, get_field (step acc a) s f = Some e ->
                 get_field acc s f = Some e \/ turn e = Some nt) ->
  forall sp, get_field (fold_left step l sp) s f = Some e ->
             get_field sp s f = Some e \/ turn e = Some nt.
Proof.
  intros Hstep. induction l as [|a l IH]; intros sp Hget; [by left|].
  cbn in Hget. apply IH in Hget as [Hget | ?]; [|by right].
  by apply Hstep in Hget.
Qed.

Lemma run_call_keeps_entry sp c s f e t :
  get_field sp s f = Some e -> turn e = Some t -> site_turn sp c <= t ->
  get_field (run_call sp c) s f = Some e.
Proof.
  intros Hget Ht Hle.
  destruct c as [now d | now st k v | now d | now d | now slot]; cbn in *.
  - apply fold_keeps_entry; [|done]. intros acc kv Hacc.
    unfold populate_one. repeat case_match; try done.
    by eapply add_field_keeps_entry.
  - unfold update_from_extraction.
    repeat case_match; try done; by eapply add_field_keeps_entry.
  - unfold add_optional_fields.
    apply (add_optional_loop_ind (fun sp' => get_field sp' s f = Some e));
      [|done].
    intros acc section f2 v om Hacc. by eapply add_field_keeps_entry_with.
  - unfold _add_extracted_data. destruct d as [|kv d]; [done|].
    apply fold_keeps_entry; [|done]. intros acc a Hacc.
    repeat case_match; try done. by eapply add_field_keeps_entry.
  - unfold set_time_slot.
    repeat case_match; try done; by eapply add_field_keeps_entry.
Qed.

Lemma run_call_entry_origin sp c s f e :
  get_field (run_call sp c) s f = Some e ->
  get_field sp s f = Some e \/ turn e = Some (site_turn sp c).
Proof.
  destruct c as [now d | now st k v | now d | now d | now slot]; cbn.
  - apply fold_entry_origin. intros acc kv.
    unfold populate_one. repeat case_match; try (by left).
    apply add_field_entry_origin.
  - unfold update_from_extraction.
    repeat case_match; try (by left); apply add_field_entry_origin.
  - unfold add_optional_fields.
    apply (add_optional_loop_ind
             (fun sp' => get_field sp' s f = Some e ->
                         get_field sp s f = Some e \/ turn e = Some 0));
      [|by left].
    intros acc section f2 v om Hacc Hnew.
    apply add_field_entry_origin_with in Hnew as [Hold | ?]; [|by right].
    by apply Hacc.
  - unfold _add_extracted_data. destruct d as [|kv d]; [by left|].
    apply fold_entry_origin. intros acc a.
    repeat case_match; try (by left). apply add_field_entry_origin.
  - unfold set_time_slot.
    repeat case_match; try (by left); apply add_field_entry_origin.
Qed.

Lemma site_turn_run_call sp c c' :
  site_turn (run_call sp c) c' = site_turn sp c'.
Proof.
  destruct c'; try done. cbn. unfold booking_flow_turn.
  by rewrite turns_run_call.
Qed.

Lemma site_turn_same_site sp c c' :
  site_of c' = site_of c -> site_turn sp c' = site_turn sp c.
Proof. by destruct c, c'. Qed.

Lemma site_turn_absent sp c :
  turns (metadata (form sp)) = None ->
  site_turn sp c = match site_of c with SiteAddExtractedData => 1 | _ => 0 end.
Proof.
  intros Hnone. destruct c; try done.
  cbn. unfold booking_flow_turn. by rewrite Hnone.
Qed.

Lemma run_calls_keep_entry calls : forall sp s f e t,
  get_field sp s f = Some e -> turn e = Some t ->
  Forall (fun c => site_turn sp c <= t) calls ->
  get_field (run_calls sp calls) s f = Some e.
Proof.
  induction calls as [|c calls IH]; intros sp s f e t Hget Ht Hall; [done|].
  apply Forall_cons in Hall as [Hc Hall]. cbn.
  apply (IH _ _ _ _ t); [by eapply run_call_keeps_entry | done |].
  eapply Forall_impl; [exact Hall|]. intros c'. cbn.
  by rewrite site_turn_run_call.
Qed.

(** C10, as the code has it.  The key [turns] of the scratchpad metadata is
    absent in a new scratchpad, no call site writes it and no operation of the
    manager adds it, so the turn number that each call of [add_field] in the
    code passes is a constant: 0 in step 8.4 of the orchestrator, in
    [update_from_extraction] and [add_optional_fields] of the scratchpad
    coordinator and in [set_time_slot], and 1 in
    [BookingFlowManager._add_extracted_data].  An entry found after a call
    was there before or carries the constant of the site as its turn.  An
    entry with a recorded turn survives unchanged every sequence of calls
    from sites whose constant is not above that turn.  So an entry that a
    call has written survives every later sequence of calls from the same
    site, and an entry with a turn of 1 or more survives the calls of every
    site. *)
Theorem call_site_turns_are_constant :
  (forall cid t0, turns (metadata (form (new_scratchpad cid t0))) = None)
  /\
  (forall sp op,
     turns (metadata (form sp)) = None ->
     turns (metadata (form (run_op sp op))) = None)
  /\
  (forall sp c,
     turns (metadata (form (run_call sp c))) = turns (metadata (form sp)))
  /\
  (forall sp c,
     turns (metadata (form sp)) = None ->
     site_turn sp c
     = match site_of c with SiteAddExtractedData => 1 | _ => 0 end)
  /\
  (forall sp c s f e,
     get_field (run_call sp c) s f = Some e ->
     get_field sp s f = Some e \/ turn e = Some (site_turn sp c))
  /\
  (forall sp s f e t calls,
     get_field sp s f = Some e -> turn e = Some t ->
     Forall (fun c => site_turn sp c <= t) calls ->
     get_field (run_calls sp calls) s f = Some e)
  /\
  (forall sp c s f e calls,
     get_field (run_call sp c) s f = Some e ->
     get_field sp s f <> Some e ->
     Forall (fun c' => site_of c' = site_of c) calls ->
     get_field (run_calls (run_call sp c) calls) s f = Some e)
  /\
  (forall sp s f e t calls,
     turns (metadata (form sp)) = None ->
     get_field sp s f = Some e -> turn e = Some t -> 1 <= t ->
     get_field (run_calls sp calls) s f = Some e).
Proof.
  split; [done|]. split; [apply turns_run_op|].
  split; [apply turns_run_call|]. split; [apply site_turn_absent|].
  split; [apply run_call_entry_origin|].
  split; [intros; by eapply run_calls_keep_entry|]. split.
  - intros sp c s f e calls Hnew Hold Hsame.
    destruct (run_call_entry_origin sp c s f e Hnew) as [? | Ht]; [done|].
    apply (run_calls_keep_entry calls _ s f e (site_turn sp c)); [done..|].
    eapply Forall_impl; [exact Hsame|]. intros c' Hc'. cbn in *.
    rewrite site_turn_run_call, (site_turn_same_site sp c c') by done. lia.
  - intros sp s f e t calls Hnone Hget Ht Hle.
    apply (run_calls_keep_entry calls _ s f e t); [done..|].
    apply Forall_forall. intros c _.
    rewrite site_turn_absent by done. destruct (site_of c); lia.
Qed.

(** C10, at a scenario: the first name stored by step 8.4 survives a second
    run of step 8.4 and a call of the coordinator that carry another name. *)
Lemma call_site_turns_witness :
  site_turn Scenario.populated (CallAddExtractedData 4 Scenario.collected) = 1
  /\
  get_field (run_calls Scenario.populated Scenario.later_calls)
    "customer" "first_name" = Some Scenario.raj_entry.
Proof.
  destruct call_site_turns_are_constant
    as (_ & _ & _ & Hconst & _ & Hkeep & _).
  split.
  - apply (Hconst Scenario.populated
             (CallAddExtractedData 4 Scenario.collected)).
    vm_compute. reflexivity.
  - apply (Hkeep Scenario.populated "customer" "first_name"
             Scenario.raj_entry 0 Scenario.later_calls).
    + vm_compute. reflexivity.
    + reflexivity.
    + repeat constructor; vm_compute; discriminate.
Defined.

(** C10 as stated fails across call sites: the first name that step 8.4
    stored at turn 0 is superseded by a later call of the booking flow
    manager, which writes at turn 1, so a stored value changes through
    [add_field] too. *)
Lemma booking_flow_write_supersedes :
  value <$> get_field Scenario.populated "customer" "first_name"
  = Some (Some (Str "Raj"))
  /\ turn <$> get_field Scenario.populated "customer" "first_name"
     = Some (Some 0)
  /\ value <$> get_field
                 (run_call Scenario.populated Scenario.booking_flow_amit)
                 "customer" "first_name"
     = Some (Some (Str "Amit"))
  /\ turn <$> get_field
                (run_call Scenario.populated Scenario.booking_flow_amit)
                "customer" "first_name"
     = Some (Some 1).
Proof. vm_compute. repeat split; reflexivity. Qed.

(** ** Bookability *)

Lemma required_indicator_range d k : 0 <= required_indicator d k <= 1.
Proof. unfold required_indicator. repeat case_match; lia. Qed.

Lemma required_indicator_None d k :
  d !! k = None -> required_indicator d k = 0.
Proof. unfold required_indicator. by intros ->. Qed.

(** The inner loop of [_update_completeness] adds one indicator per name it
    looks at. *)
Lemma filled_required_fold d (l : list string) : forall acc : Z,
  fold_left
    (fun acc field_name =>
       match d !! field_name with
       | Some e =>
           if truthy (value e) then
             if PyStr.mem (PyStr.lower (py_str (value e))) PLACEHOLDERS
             then acc else acc + 1
           else acc
       | None => acc
       end) l acc
  = acc + fold_right (fun k s => required_indicator d k + s) 0 l.
Proof.
  induction l as [|k l IH]; intros acc; cbn [fold_left fold_right]; [lia|].
  rewrite IH. unfold required_indicator. repeat case_match; lia.
Qed.

Lemma filled_required_in_sum d :
  filled_required_in d
  = required_indicator d "first_name" + required_indicator d "last_name"
    + required_indicator d "phone" + required_indicator d "brand"
    + required_indicator d "model" + required_indicator d "plate"
    + required_indicator d "date".
Proof.
  unfold filled_required_in. rewrite filled_required_fold.
  unfold required_fields. cbn [fold_right app]. lia.
Qed.

Lemma home_inv_absent sp section k :
  home_inv sp -> valid_section section = true ->
  home_allowed section k = false ->
  getattr_section (form sp) section !! k = None.
Proof.
  intros Hinv Hs Hk.
  destruct (getattr_section (form sp) section !! k) eqn:E; [|done].
  assert (home_allowed section k = true) by (apply Hinv; [done | by rewrite E]).
  congruence.
Qed.

(** With every required name in its own section only, at most seven required
    fields are counted. *)
Lemma home_inv_required_bound sp :
  home_inv sp -> filled_required_count (form sp) <= 7.
Proof.
  intros Hinv. unfold filled_required_count.
  rewrite !filled_required_in_sum.
  pose proof (fun k H => required_indicator_None _ k
                (home_inv_absent sp "customer" k Hinv eq_refl H)) as Hc.
  pose proof (fun k H => required_indicator_None _ k
                (home_inv_absent sp "vehicle" k Hinv eq_refl H)) as Hv.
  pose proof (fun k H => required_indicator_None _ k
                (home_inv_absent sp "appointment" k Hinv eq_refl H)) as Ha.
  change (getattr_section (form sp) "customer") with (customer (form sp)) in Hc.
  change (getattr_section (form sp) "vehicle") with (vehicle (form sp)) in Hv.
  change (getattr_section (form sp) "appointment")
    with (appointment (form sp)) in Ha.
  rewrite (Hc "brand"), (Hc "model"), (Hc "plate"), (Hc "date") by done.
  rewrite (Hv "first_name"), (Hv "last_name"), (Hv "phone"), (Hv "date")
    by done.
  rewrite (Ha "first_name"), (Ha "last_name"), (Ha "phone"), (Ha "brand"),
    (Ha "model"), (Ha "plate") by done.
  pose proof (required_indicator_range (customer (form sp)) "first_name").
  pose proof (required_indicator_range (customer (form sp)) "last_name").
  pose proof (required_indicator_range (customer (form sp)) "phone").
  pose proof (required_indicator_range (vehicle (form sp)) "brand").
  pose proof (required_indicator_range (vehicle (form sp)) "model").
  pose proof (required_indicator_range (vehicle (form sp)) "plate").
  pose proof (required_indicator_range (appointment (form sp)) "date").
  lia.
Qed.

Lemma home_inv_update_completeness sp :
  home_inv sp -> home_inv (_update_completeness sp).
Proof.
  intros Hinv section k Hs. rewrite getattr_update_completeness.
  by apply Hinv.
Qed.

Lemma home_inv_insert sp section k e :
  home_inv sp -> valid_section section = true ->
  home_allowed section k = true ->
  home_inv
    (with_form sp
       (setattr_section (form sp) section
          (<[k := e]> (getattr_section (form sp) section)))).
Proof.
  intros Hinv Hs Hk s2 k2 Hs2. cbn.
  destruct (decide (s2 = section)) as [-> | Hne].
  - rewrite getattr_setattr_same.
    destruct (decide (k2 = k)) as [-> | Hk2]; [done|].
    rewrite lookup_insert_ne by done. by apply Hinv.
  - rewrite getattr_setattr_other by done. by apply Hinv.
Qed.

Lemma home_inv_add_field now sp section k v src nt conf m es :
  home_inv sp -> home_allowed section k = true ->
  home_inv (add_field now sp section k v src nt conf m es).2.
Proof.
  intros Hinv Hk.
  destruct (add_field_unchanged_or_accepted now sp section k v src nt conf m es)
    as [-> | [sp' H]]; [done|].
  rewrite H. apply add_field_accepted_spec in H as (Hs & _ & prev & _ & ->).
  cbn. by apply home_inv_update_completeness, home_inv_insert.
Qed.

Lemma home_inv_update_field sp section k v :
  home_inv sp -> home_inv (update_field sp section k v).2.
Proof.
  intros Hinv. unfold update_field.
  destruct (get_field sp section k) as [e|] eqn:Hget; [|done]. cbn.
  pose proof (get_field_Some_valid _ _ _ _ Hget) as Hs.
  apply home_inv_update_completeness, home_inv_insert; [done..|].
  apply Hinv; [done|]. rewrite get_field_valid in Hget by done.
  by rewrite Hget.
Qed.

Lemma home_inv_delete sp section k :
  home_inv sp -> valid_section section = true ->
  home_inv
    (with_form sp
       (setattr_section (form sp) section
          (delete k (getattr_section (form sp) section)))).
Proof.
  intros Hinv Hs s2 k2 Hs2. cbn.
  destruct (decide (s2 = section)) as [-> | Hne].
  - rewrite getattr_setattr_same. intros [x Hx].
    apply lookup_delete_Some in Hx as [_ Hx].
    apply Hinv; [done | by rewrite Hx].
  - rewrite getattr_setattr_other by done. by apply Hinv.
Qed.

Lemma home_inv_delete_entry sp section k :
  home_inv sp -> valid_section section = true ->
  home_inv (delete_entry sp section k).2.
Proof.
  intros Hinv Hs. unfold delete_entry.
  destruct (getattr_section (form sp) section !! k) eqn:E; [cbn|done].
  by apply home_inv_update_completeness, home_inv_delete.
Qed.

Lemma home_inv_delete_field sp section k :
  home_inv sp -> home_inv (delete_field sp section k).2.
Proof.
  intros Hinv. unfold delete_field.
  destruct section; try by apply home_inv_delete_entry.
  - destruct (metadata_delete (metadata (form sp)) k) as [m|]; [cbn|done].
    apply home_inv_update_completeness.
    intros s2 k2 Hs2. specialize (Hinv s2 k2 Hs2).
    by apply valid_section_cases in Hs2 as [-> | [-> | ->]].
  - done.
Qed.

Lemma home_inv_clear_all sp : home_inv (clear_all sp).
Proof.
  intros section k Hs.
  apply valid_section_cases in Hs as [-> | [-> | ->]];
    unfold clear_all, getattr_section; cbn; rewrite lookup_empty;
    by intros [? ?].
Qed.

(** Step 8.4 sends every required name to its own section. *)
Lemma orchestrator_target_home k section f :
  orchestrator_target k = Some (section, f) -> home_allowed section f = true.
Proof.
  unfold orchestrator_target.
  repeat
    match goal with
    | |- context [ PyStr.mem k ?l ] =>
        let E := fresh "E" in
        destruct (PyStr.mem k l) eqn:E;
        [ apply mem_true_iff in E; cbn in E;
          repeat (destruct E as [<- | E]; [intros [= <- <-]; reflexivity|]);
          done
        | ]
    end.
  done.
Qed.

Lemma section_map_home k section f :
  section_map k = Some (section, f) -> home_allowed section f = true.
Proof.
  unfold section_map.
  repeat (case_match; [intros [= <- <-]; reflexivity|]). done.
Qed.

Lemma home_inv_fold {A} (step : ScratchpadManager -> A -> ScratchpadManager)
    (l : list A) :
  (forall acc a, home_inv acc -> home_inv (step acc a)) ->
  forall sp, home_inv sp -> home_inv (fold_left step l sp).
Proof.
  intros Hstep. induction l as [|a l IH]; intros sp Hinv; [done|].
  cbn. by apply IH, Hstep.
Qed.

Lemma home_inv_run_home sp op : home_inv sp -> home_inv (run_home sp op).
Proof.
  intros Hinv. destruct op as [now d | now d | section k v | section k |]; cbn.
  - apply home_inv_fold; [|done]. intros acc kv Hacc.
    unfold populate_one. destruct (kv.2); [|done].
    destruct (orchestrator_target kv.1) as [[section f]|] eqn:E; [|done].
    apply home_inv_add_field; [done|]. by eapply orchestrator_target_home.
  - unfold _add_extracted_data. destruct d as [|kv d]; [done|].
    apply home_inv_fold; [|done]. intros acc a Hacc.
    destruct (a.2); [|done].
    destruct (section_map a.1) as [[section f]|] eqn:E; [|done].
    apply home_inv_add_field; [done|]. by eapply section_map_home.
  - by apply home_inv_update_field.
  - by apply home_inv_delete_field.
  - apply home_inv_clear_all.
Qed.

(** The flag stored by [_update_completeness] under [home_inv]. *)
Lemma not_bookable_update_completeness sp :
  home_inv sp ->
  is_bookable (metadata (form (_update_completeness sp))) = Some false.
Proof.
  intros Hinv. unfold _update_completeness. cbn. f_equal.
  apply Z.leb_gt. pose proof (home_inv_required_bound sp Hinv).
  change Config.REQUIRED_FIELDS_FOR_BOOKING with 12. lia.
Qed.

Lemma never_bookable_add_field now sp section k v src nt conf m es :
  never_bookable sp -> home_allowed section k = true ->
  never_bookable (add_field now sp section k v src nt conf m es).2.
Proof.
  intros [Hinv Hflag] Hk.
  split; [by apply home_inv_add_field|].
  destruct (add_field_unchanged_or_accepted now sp section k v src nt conf m es)
    as [-> | [sp' H]]; [done|].
  rewrite H. apply add_field_accepted_spec in H as (Hs & _ & prev & _ & ->).
  cbn. rewrite not_bookable_update_completeness; [done|].
  by apply home_inv_insert.
Qed.

Lemma never_bookable_fold {A}
    (step : ScratchpadManager -> A -> ScratchpadManager) (l : list A) :
  (forall acc a, never_bookable acc -> never_bookable (step acc a)) ->
  forall sp, never_bookable sp -> never_bookable (fold_left step l sp).
Proof.
  intros Hstep. induction l as [|a l IH]; intros sp Hinv; [done|].
  cbn. by apply IH, Hstep.
Qed.

Lemma never_bookable_run_home sp op :
  never_bookable sp -> never_bookable (run_home sp op).
Proof.
  intros Hnb. destruct op as [now d | now d | section k v | section k |]; cbn.
  - apply never_bookable_fold; [|done]. intros acc kv Hacc.
    unfold populate_one. destruct (kv.2); [|done].
    destruct (orchestrator_target kv.1) as [[section f]|] eqn:E; [|done].
    apply never_bookable_add_field; [done|].
    by eapply orchestrator_target_home.
  - unfold _add_extracted_data. destruct d as [|kv d]; [done|].
    apply never_bookable_fold; [|done]. intros acc a Hacc.
    destruct (a.2); [|done].
    destruct (section_map a.1) as [[section f]|] eqn:E; [|done].
    apply never_bookable_add_field; [done|]. by eapply section_map_home.
  - destruct Hnb as [Hinv Hflag].
    split; [by apply home_inv_update_field|].
    unfold update_field.
    destruct (get_field sp section k) as [e|] eqn:Hget; [|done]. cbn.
    pose proof (get_field_Some_valid _ _ _ _ Hget) as Hs.
    rewrite not_bookable_update_completeness; [done|].
    apply home_inv_insert; [done..|].
    apply Hinv; [done|]. rewrite get_field_valid in Hget by done.
    by rewrite Hget.
  - destruct Hnb as [Hinv Hflag].
    split; [by apply home_inv_delete_field|].
    assert (forall s, valid_section s = true ->
              is_bookable (metadata (form (delete_entry sp s k).2))
              <> Some true) as Hentry.
    { intros s Hs. unfold delete_entry.
      destruct (getattr_section (form sp) s !! k) eqn:E; [cbn|done].
      rewrite not_bookable_update_completeness; [done|].
      by apply home_inv_delete. }
    unfold delete_field. destruct section; try by apply Hentry.
    + destruct (metadata_delete (metadata (form sp)) k) as [m|]; [cbn|done].
      rewrite not_bookable_update_completeness; [done|].
      intros s2 k2 Hs2. specialize (Hinv s2 k2 Hs2).
      by apply valid_section_cases in Hs2 as [-> | [-> | ->]].
    + done.
  - destruct Hnb as [Hinv Hflag]. split; [apply home_inv_clear_all|done].
Qed.

Lemma never_bookable_new cid t0 : never_bookable (new_scratchpad cid t0).
Proof.
  split; [|done]. intros section k Hs.
  apply valid_section_cases in Hs as [-> | [-> | ->]];
    unfold new_scratchpad, getattr_section; cbn; rewrite lookup_empty;
    by intros [? ?].
Qed.

(** C9, as the code has it.  On a scratchpad that is written only by step 8.4
    of the orchestrator and by [BookingFlowManager._add_extracted_data], and
    changed in place by [update_field], [delete_field] and [clear_all], every
    required name is stored in one section only: at most seven required fields
    are counted, fewer than the eleven that the flag asks for, and
    [is_bookable] is never true. *)
Theorem home_writes_never_bookable cid t0 (ops : list HomeOp) :
  let sp := run_homes (new_scratchpad cid t0) ops in
  filled_required_count (form sp) <= 7 /\
  filled_required_count (form sp)
  < Config.REQUIRED_FIELDS_FOR_BOOKING - 1 /\
  is_bookable (metadata (form sp)) <> Some true.
Proof.
  cbn zeta.
  assert (never_bookable (run_homes (new_scratchpad cid t0) ops)) as [Hinv Hf].
  { apply never_bookable_fold; [|apply never_bookable_new].
    intros. by apply never_bookable_run_home. }
  pose proof (home_inv_required_bound _ Hinv).
  change Config.REQUIRED_FIELDS_FOR_BOOKING with 12.
  repeat split; [lia | lia | done].
Qed.

(** C9 as stated fails: the scratchpad coordinator writes every extracted key
    into the section of the state, so the required names are stored in several
    sections.  After a turn that stays in VEHICLE_DETAILS and a turn that moves
    to DATE_SELECTION thirteen required fields are counted and the flag is
    true. *)
Lemma is_bookable_through_coordinator :
  filled_required_fields
    (metadata (form (res_scratchpad Scenario.after_vehicle_turn))) = Some 10
  /\
  filled_required_fields
    (metadata (form (res_scratchpad Scenario.after_date_turn))) = Some 13
  /\
  is_bookable (metadata (form (res_scratchpad Scenario.after_date_turn)))
  = Some true
  /\
  value <$> get_field (res_scratchpad Scenario.after_date_turn)
              "vehicle" "first_name" = Some (Some (Str "Raj")).
Proof. vm_compute. repeat split; reflexivity. Qed.

(** ** The confirmation block *)

Section ConfirmationFlow.

Variable gen_id : nat -> string.














(** When the dump raises, both tails clear the scratchpad all the same. *)
Lemma dump_failure_still_clears w cid sp id :
  PyStr.nonempty id = true -> get_completeness sp <> 0 ->
  chat_dump_and_clear Config.CONFIRMATION_MODE true w cid sp (Some id)
  = (clear_all sp, w)
  /\ button_dump_and_clear true w cid sp (Some id) = (clear_all sp, w).
Proof.
  intros Hne Hpos. unfold chat_dump_and_clear, button_dump_and_clear.
  change Config.CONFIRMATION_MODE with Config.CHAT. cbn. rewrite Hne.
  by rewrite (proj2 (Z.eqb_neq _ _) Hpos).
Qed.

End ConfirmationFlow.





(** C2: a confirmed turn whose dump raises.  The service request is built and
    its identifier recorded, no snapshot is written, and the scratchpad that
    held seven fields is cleared all the same, in the chat entry point and in
    the button entry point, where the state is COMPLETED by then. *)
Lemma dump_failure_clears_scratchpad :
  res_completeness Scenario.confirm_dump_fails = 438
  /\ res_service_request_id Scenario.confirm_dump_fails = Some "SR-1"
  /\ dumped (res_world Scenario.confirm_dump_fails) = []
  /\ customer (form (res_scratchpad Scenario.confirm_dump_fails)) = ∅
  /\ vehicle (form (res_scratchpad Scenario.confirm_dump_fails)) = ∅
  /\ appointment (form (res_scratchpad Scenario.confirm_dump_fails)) = ∅
  /\ get_completeness (res_scratchpad Scenario.confirm_dump_fails) = 0
  /\ get_completeness Scenario.populated = 438
  /\ dumped Scenario.button_dump_fails.2 = []
  /\ Scenario.button_dump_fails.1.2 = clear_all Scenario.populated
  /\ state Scenario.button_dump_fails.1.1.2 = COMPLETED.
Proof. vm_compute. repeat split; reflexivity. Qed.

(** ** The retroactive name scan *)

Section NameScan.

Variable VehicleBrandEnum : list string.
Variable filter_dspy_history_to_user_only : list Message -> list Message.
Variable name_extractor : list Message -> string -> NameExtraction.
Variable ValidatedName_accepts : string -> string -> string -> bool.

(** What the loop over the messages can return. *)
Lemma scan_messages_filters user_only_history messages vn :
  scan_messages VehicleBrandEnum name_extractor ValidatedName_accepts
    user_only_history messages = Some vn ->
  PyStr.nonempty (vn_first_name vn) = true /\
  PyStr.mem (PyStr.lower (vn_first_name vn)) Config.GREETING_STOPWORDS = false
  /\ _is_vehicle_brand VehicleBrandEnum (vn_first_name vn) = false
  /\ _is_vehicle_brand VehicleBrandEnum (vn_last_name vn) = false.
Proof.
  induction messages as [|message rest IH]; [done|].
  cbn [scan_messages].
  destruct (name_extractor user_only_history message) as [|first last];
    [done|].
  set (first_name := sanitize first).
  set (last_name := match last with
                    | Some l => sanitize l
                    | None => EmptyString
                    end).
  destruct (_is_vehicle_brand VehicleBrandEnum first_name
            || _is_vehicle_brand VehicleBrandEnum last_name) eqn:Hbrand;
    [done|].
  apply orb_false_iff in Hbrand as [Hb1 Hb2].
  destruct (PyStr.nonempty first_name) eqn:Hne; cbn [andb]; [|done].
  destruct (PyStr.mem (PyStr.lower first_name) Config.GREETING_STOPWORDS)
    eqn:Hstop; [done|].
  destruct (negb _); [|done].
  destruct (ValidatedName_accepts _ _ _); [|done].
  by intros [= <-].
Qed.

(** C8, as the code has it.  A name that the retroactive scan returns has a
    non-empty first name that is no greeting stopword (case-insensitively),
    and neither its first nor its last name matches a vehicle brand; a
    candidate that fails one of these tests is skipped.  The last name is
    not compared with the stopword list. *)
Theorem scan_for_name_filters history vn :
  scan_for_name VehicleBrandEnum filter_dspy_history_to_user_only
    name_extractor ValidatedName_accepts history = Some vn ->
  PyStr.nonempty (vn_first_name vn) = true /\
  PyStr.mem (PyStr.lower (vn_first_name vn)) Config.GREETING_STOPWORDS = false
  /\ _is_vehicle_brand VehicleBrandEnum (vn_first_name vn) = false
  /\ _is_vehicle_brand VehicleBrandEnum (vn_last_name vn) = false.
Proof.
  unfold scan_for_name. destruct history as [messages|]; [|done].
  case_match; [done|]. apply scan_messages_filters.
Qed.

End NameScan.

(** C8, at a scenario: the most recent message names a vehicle, the one before
    is a greeting word, and the scan goes on to the name given first. *)
Lemma scan_for_name_filters_witness :
  Scenario.scan Scenario.history_amit
  = Some (mkValidatedName "Amit" "Shah" "Amit Shah" 80 "dspy"
            "my name is Amit Shah")
  /\ PyStr.mem (PyStr.lower "Amit") Config.GREETING_STOPWORDS = false
  /\ _is_vehicle_brand Scenario.brands "Amit" = false
  /\ _is_vehicle_brand Scenario.brands "Shah" = false.
Proof.
  split; [reflexivity|].
  apply (scan_for_name_filters Scenario.brands Scenario.user_only
           Scenario.extractor Scenario.accepts_all Scenario.history_amit
           (mkValidatedName "Amit" "Shah" "Amit Shah" 80 "dspy"
              "my name is Amit Shah")).
  vm_compute. reflexivity.
Defined.

(** C8 as stated fails for the last name: a candidate whose last name is a
    greeting stopword is returned as the name of the customer. *)
Lemma scan_returns_stopword_last_name :
  exists vn,
    Scenario.scan Scenario.history_raj_haan = Some vn
    /\ vn_last_name vn = "Haan"
    /\ PyStr.mem (PyStr.lower (vn_last_name vn)) Config.GREETING_STOPWORDS
       = true.
Proof.
  exists (mkValidatedName "Raj" "Haan" "Raj Haan" 80 "dspy" "I am Raj Haan").
  repeat split; reflexivity.
Qed.
